(** * Edward model wrappers and the variational container

    A shallow embedding of [edward/models/models.py]: the model wrappers
    [PyMC3Model] and [StanModel], and the [Variational] container of
    distribution layers.

    Python objects become records, attribute assignment becomes record
    update, raised exceptions become [Error e] in a small error monad, and
    the one Python list that a container may share with its caller (the
    [layers] argument of [Variational.__init__]) lives in an explicit store
    of list objects addressed by identity. *)

From Stdlib Require Import ZArith List Bool String Lia.
From Stdlib Require Import Floats.SpecFloat.
From stdpp Require Import base option list strings gmap.
Import ListNotations.

Local Open Scope nat_scope.

(** ** Exceptions and the error monad *)

(** The exception classes that the modelled code can raise itself or
    receive from NumPy, TensorFlow and the wrapped engines. *)
Inductive exn : Type :=
| NotImplementedError
| IndexError
| ValueError
| TypeError
| AttributeError
| BackendError (code : nat).

Abbreviation M A := (result A exn).

Definition bind {A B : Type} (m : M A) (k : A -> M B) : M B :=
  match m with
  | Ok a => k a
  | Error e => Error e
  end.

Notation "'do' x <- m ; k" := (bind m (fun x => k))
  (at level 10, x pattern, m at level 100, k at level 200).

(** A list comprehension whose body may raise: elements are evaluated left
    to right and the first exception aborts the comprehension. *)
Fixpoint comprehension {A B : Type} (f : A -> M B) (l : list A) : M (list B) :=
  match l with
  | [] => Ok []
  | a :: l' => do b <- f a; do bs <- comprehension f l'; Ok (b :: bs)
  end.

(** [seq[i]] for a non-negative index. *)
Definition getitem {A : Type} (l : list A) (i : nat) : M A :=
  match l !! i with
  | Some a => Ok a
  | None => Error IndexError
  end.

(** ** Numbers *)

(** The arithmetic of the numeric runtime is a parameter of the whole
    development: [f32] are the entries of [tf.float32] tensors and
    [np.float32] arrays, [f64] are Python floats. No algebraic law is
    assumed of them. *)
Class Floats : Type := {
  f32 : Type;
  f64 : Type;
  zero32 : f32;
  add32 : f32 -> f32 -> f32;
  (* storing a Python float into a float32 array *)
  round32 : f64 -> f32;
  (* [float(x)] of a float32 array entry *)
  float_of : f32 -> f64
}.

(** Builtin [sum] over Python ints and builtin [all]. *)
Definition py_sum (l : list Z) : Z := fold_left Z.add l 0%Z.
Definition py_all (l : list bool) : bool := forallb id l.

(** ** Tensors and sequences *)

Section Values.
Context {FL : Floats}.

(** Values that flow through the container: a Python list of tensors and
    a tensor with a leading axis both support [len] and integer
    indexing, so both are sequences. *)
#[local] Unset Elimination Schemes.
Inductive pyval : Type :=
| Scalar (x : f32)
| Seq (xs : list pyval).
#[local] Set Elimination Schemes.

(** [xs[i]] *)
Definition index (xs : pyval) (i : nat) : M pyval :=
  match xs with
  | Scalar _ => Error TypeError
  | Seq l => getitem l i
  end.

(** Modelled from the spec: [get_dims] of [edward.util], which is not in
    the sources at hand; the container only uses its first entry, "the
    first entry's leading dimension". The dimensions of a value are the
    lengths met when descending along first elements. *)
Fixpoint get_dims (x : pyval) : list nat :=
  match x with
  | Scalar _ => []
  | Seq l => length l :: match l with
                         | [] => []
                         | y :: _ => get_dims y
                         end
  end.

(** Nesting depth of a value. *)
Fixpoint depth (x : pyval) : nat :=
  match x with
  | Scalar _ => 0
  | Seq l => S (foldr (fun y d => Nat.max (depth y) d) 0 l)
  end.

(** [tf.zeros([n], dtype=tf.float32)] *)
Definition tf_zeros (n : nat) : list f32 := replicate n zero32.

(** [a + b] on rank-one float32 tensors: elementwise on equal lengths,
    a length-one operand is broadcast, other shapes are rejected. *)
Definition tf_add (a b : list f32) : M (list f32) :=
  if length a =? length b then Ok (zip_with add32 a b)
  else match a, b with
       | _, [y] => Ok (map (fun x => add32 x y) a)
       | [x], _ => Ok (map (fun y => add32 x y) b)
       | _, _ => Error ValueError
       end.
End Values.

(** ** Distribution layers *)

Module Layer.
Section Layer.
Context {FL : Floats}.

(** Modelled from the spec: the distribution classes of
    [edward.models.distributions] are not in the sources at hand. A layer
    exposes what the container reads: [shape], [num_vars], [num_params],
    [is_multivariate], the three methods, and three facts about its
    class: whether the class dictionary holds ['reparam'] and
    ['entropy'], and whether the layer is an instance of [Normal]. *)
Record t : Type := mk {
  shape : list Z;
  num_vars : Z;
  num_params : Z;
  is_multivariate : bool;
  has_reparam : bool;
  has_entropy : bool;
  isinstance_Normal : bool;
  sample : Z -> M pyval;
  log_prob : pyval -> M (list f32);
  entropy : M f32
}.
End Layer.
End Layer.

(** ** The variational container *)

Module Variational.
(** Identity of a Python list object holding layers. *)
Definition loc := nat.

(** The store of such list objects. *)
Abbreviation heap := (gmap nat (list Layer.t)).

Section Container.
Context {FL : Floats}.

(** A container. [layers] is a reference: [__init__] keeps the very list
    it is given, and [add] extends that list in place. The other two list
    attributes are created by the container itself and are held by
    value. *)
Record t : Type := mk {
  layers : loc;
  shape : list (list Z);
  num_vars : Z;
  num_params : Z;
  is_reparam : bool;
  is_normal : bool;
  is_entropy : bool;
  is_multivariate : list bool
}.

(** The layer sequence a container currently refers to. *)
Definition layers_of (h : heap) (self : t) : list Layer.t :=
  default [] (h !! layers self).

(** [Variational(layers=None)] allocates a new empty list;
    [Variational(layers=r)] keeps [r] and reads it to compute the
    aggregates. A reference to no object does not arise in Python and
    yields [None]. The call [get_session()] only makes sure that a
    TensorFlow session exists and leaves no trace in the container. *)
Definition __init__ (h : heap) (arg : option loc) : option (heap * t) :=
  match arg with
  | None =>
      let r := fresh (dom h) in
      Some (<[r := []]> h,
            {| layers := r;
               shape := [];
               num_vars := 0;
               num_params := 0;
               is_reparam := true;
               is_normal := true;
               is_entropy := true;
               is_multivariate := [] |})
  | Some r =>
      match h !! r with
      | None => None
      | Some ls =>
          Some (h,
                {| layers := r;
                   shape := map Layer.shape ls;
                   num_vars := py_sum (map Layer.num_vars ls);
                   num_params := py_sum (map Layer.num_params ls);
                   is_reparam := py_all (map Layer.has_reparam ls);
                   is_normal := py_all (map Layer.isinstance_Normal ls);
                   is_entropy := py_all (map Layer.has_entropy ls);
                   is_multivariate := map Layer.is_multivariate ls |})
      end
  end.

(** [self.layers += [layer]] extends the referenced list in place; the
    scalar attributes are rebound. *)
Definition add (h : heap) (self : t) (layer : Layer.t) : heap * t :=
  (alter (fun ls => ls ++ [layer]) (layers self) h,
   {| layers := layers self;
      shape := shape self ++ [Layer.shape layer];
      num_vars := (num_vars self + Layer.num_vars layer)%Z;
      num_params := (num_params self + Layer.num_params layer)%Z;
      is_reparam := is_reparam self && Layer.has_reparam layer;
      is_entropy := is_entropy self && Layer.has_entropy layer;
      is_normal := is_normal self && Layer.isinstance_Normal layer;
      is_multivariate := is_multivariate self ++ [Layer.is_multivariate layer] |}).

(** A sequence of [add] calls on one container. *)
Fixpoint add_all (h : heap) (self : t) (ls : list Layer.t) : heap * t :=
  match ls with
  | [] => (h, self)
  | l :: ls' => let '(h', self') := add h self l in add_all h' self' ls'
  end.

(** [samples[0]] is read only when [len(samples) == 1]. *)
Definition sample (h : heap) (self : t) (size : Z) : M pyval :=
  do samples <- comprehension (fun layer => Layer.sample layer size) (layers_of h self);
  match samples with
  | [s] => Ok s
  | _ => Ok (Seq samples)
  end.

(** The loop [for l, layer in enumerate(self.layers)] of [log_prob], from
    index [l] on. *)
Fixpoint log_prob_loop (xs : pyval) (l : nat) (ls : list Layer.t)
    (log_prob : list f32) : M (list f32) :=
  match ls with
  | [] => Ok log_prob
  | layer :: ls' =>
      do x <- index xs l;
      do lp <- Layer.log_prob layer x;
      do log_prob' <- tf_add log_prob lp;
      log_prob_loop xs (S l) ls' log_prob'
  end.

Definition log_prob (h : heap) (self : t) (xs : pyval) : M (list f32) :=
  let ls := layers_of h self in
  if length ls =? 1 then
    do layer <- getitem ls 0;
    Layer.log_prob layer xs
  else
    do x0 <- index xs 0;
    do n_minibatch <- getitem (get_dims x0) 0;
    log_prob_loop xs 0 ls (tf_zeros n_minibatch).

Fixpoint entropy_loop (ls : list Layer.t) (out : f32) : M f32 :=
  match ls with
  | [] => Ok out
  | layer :: ls' =>
      do e <- Layer.entropy layer;
      entropy_loop ls' (add32 out e)
  end.

Definition entropy (h : heap) (self : t) : M f32 :=
  entropy_loop (layers_of h self) zero32.

(** The aggregate attributes of [self] are the folds over the layer
    sequence [ls]. *)
Definition aggregates_of (self : t) (ls : list Layer.t) : Prop :=
  shape self = map Layer.shape ls /\
  num_vars self = py_sum (map Layer.num_vars ls) /\
  num_params self = py_sum (map Layer.num_params ls) /\
  is_multivariate self = map Layer.is_multivariate ls /\
  is_reparam self = py_all (map Layer.has_reparam ls) /\
  is_entropy self = py_all (map Layer.has_entropy ls) /\
  is_normal self = py_all (map Layer.isinstance_Normal ls).
End Container.

Section Printing.
Context {FL : Floats}.

(** [layer.__str__()], which the distribution classes define. *)
Variable layer_str : Layer.t -> string.

Definition newline : string := String (Ascii.ascii_of_nat 10) EmptyString.

(** The loop [for l, layer in enumerate(self.layers)] of [__str__], from
    index [l] on. *)
Fixpoint __str___loop (l : nat) (ls : list Layer.t) (string : String.string)
    : String.string :=
  match ls with
  | [] => string
  | layer :: ls' =>
      let string := if l =? 0 then string else (string ++ newline)%string in
      __str___loop (S l) ls' (string ++ layer_str layer)%string
  end.

Definition __str__ (h : heap) (self : t) : String.string :=
  __str___loop 0 (layers_of h self) EmptyString.
End Printing.
End Variational.

(** ** The PyMC3 wrapper *)

Module PyMC3Model.
Section Adapter.
Context {FL : Floats}.

(** The wrapper after construction. [logp] is the callable that
    [bij.mapf(model.fastlogp)] yields: from a flat row to a log density,
    or an exception of the symbolic engine. *)
Record t : Type := mk {
  num_vars : nat;
  logp : list f32 -> M f64
}.

(** The loop [for s in range(n_minibatch)] over the indices [ss]. *)
Fixpoint _py_log_prob_loop (self : t) (zs : list (list f32)) (ss : list nat)
    (lp : list f32) : M (list f32) :=
  match ss with
  | [] => Ok lp
  | s :: ss' =>
      do z <- getitem zs s;
      do v <- logp self z;
      _py_log_prob_loop self zs ss' (<[s := round32 v]> lp)
  end.

Definition _py_log_prob (self : t) (zs : list (list f32)) : M (list f32) :=
  let n_minibatch := length zs in
  let lp := replicate n_minibatch zero32 in
  _py_log_prob_loop self zs (seq 0 n_minibatch) lp.
End Adapter.
End PyMC3Model.

(** ** The NumPy/SciPy wrapper *)

Module PythonModel.
Section Adapter.
Context {FL : Floats}.

(** The data points, of whatever type the user's model works with. *)
Variable Data : Type.

(** The wrapper object; [xs] is [None] while the attribute has not been
    assigned. *)
Record t : Type := mk {
  num_vars : option nat;
  xs : option Data
}.

Definition __init__ : t := {| num_vars := None; xs := None |}.

(** The graph node that [tf.py_func(self._py_log_prob_z, [zs], ..)[0]]
    builds. *)
Inductive node : Type :=
| py_func (zs : list (list f32)).

Definition log_prob (self : t) (xs : Data) (zs : list (list f32)) : t * node :=
  ({| num_vars := num_vars self; xs := Some xs |}, py_func zs).

(** [_py_log_prob] as the base class defines it. *)
Definition _py_log_prob (self : t) (xs : Data) (zs : list (list f32))
    : M (list f32) :=
  Error NotImplementedError.

(** [self._py_log_prob] is looked up on the object's class: [method] is
    the base definition above or the override of a subclass. *)
Definition _py_log_prob_z (method : t -> Data -> list (list f32) -> M (list f32))
    (self : t) (zs : list (list f32)) : M (list f32) :=
  match xs self with
  | Some x => method self x zs
  | None => Error AttributeError
  end.

(** Running a node calls [_py_log_prob_z] on the object as it is then. *)
Definition run_node (method : t -> Data -> list (list f32) -> M (list f32))
    (self : t) (nd : node) : M (list f32) :=
  match nd with
  | py_func zs => _py_log_prob_z method self zs
  end.

(** A sequence of [log_prob] calls; the nodes are returned in call
    order. *)
Fixpoint calls (self : t) (cs : list (Data * list (list f32))) : t * list node :=
  match cs with
  | [] => (self, [])
  | (xs, zs) :: cs' =>
      let '(self', nd) := log_prob self xs zs in
      let '(self'', nds) := calls self' cs' in
      (self'', nd :: nds)
  end.
End Adapter.
End PythonModel.

(** ** The Stan wrapper *)

Module StanModel.
Section Adapter.
Context {FL : Floats}.

(** The observed data handed to Stan (a Python dict in the source). *)
Variable Data : Type.

(** A value of the constrained-parameter dictionary: a Python float, or
    an array with its shape. *)
Inductive par_value : Type :=
| PFloat (x : f64)
| PArray (dim : list nat) (data : list f32).

(** An [OrderedDict] keyed by parameter name, in insertion order. *)
Definition z_dict := list (string * par_value).

(** [d[k] = v]: a key already present keeps its position. *)
Fixpoint setitem (d : z_dict) (k : string) (v : par_value) : z_dict :=
  match d with
  | [] => [(k, v)]
  | (k', v') :: d' =>
      if String.eqb k' k then (k, v) :: d' else (k', v') :: setitem d' k v
  end.

(** What the wrapper uses of the object that [pystan.stan] returns. *)
Record fit : Type := mkfit {
  par_dims : list (list nat);
  model_pars : list string;
  unconstrain_pars : z_dict -> M (list f64);
  (* [log_prob(upar, adjust_transform)] *)
  fit_log_prob : list f64 -> bool -> M f64
}.

(** The model source handed to [pystan.stan]. *)
Inductive source : Type :=
| File (file : string)
| ModelCode (model_code : string).

(** [pystan.stan(file=.. | model_code=.., data=xs, iter=1, chains=1)] *)
Variable stan : source -> Data -> M fit.

(** What a run leaves behind outside the wrapper object. *)
Inductive event : Type :=
| Print (msg : string)
| Stan (src : source) (data : Data).

(** The wrapper object. An attribute that was never assigned is [None];
    [num_vars] holds Python's [None] until initialization. *)
Record t : Type := mk {
  file : option string;
  model_code : option string;
  flag_init : bool;
  num_vars : option nat;
  model : option fit
}.

Definition __init__ (file model_code : option string) : M t :=
  match file with
  | Some f =>
      Ok {| file := Some f; model_code := None;
            flag_init := false; num_vars := None; model := None |}
  | None =>
      match model_code with
      | Some c =>
          Ok {| file := None; model_code := Some c;
                flag_init := false; num_vars := None; model := None |}
      | None => Error NotImplementedError
      end
  end.

(** The source that [_initialize] hands to the engine: the file when the
    attribute [file] exists, the model code otherwise. *)
Definition source_of (self : t) : option source :=
  match file self with
  | Some f => Some (File f)
  | None => ModelCode <$> model_code self
  end.

(** [sum(dim)] and [np.sum(dim)] over a parameter's dimensions. *)
Definition sum_dim (dim : list nat) : nat := fold_left Nat.add dim 0.

(** [sum(dim) if sum(dim) != 0 else 1] *)
Definition par_size (dim : list nat) : nat :=
  if sum_dim dim =? 0 then 1 else sum_dim dim.

(** [sum([sum(dim) if sum(dim) != 0 else 1 for dim in par_dims])] *)
Definition count_vars (par_dims : list (list nat)) : nat :=
  fold_left Nat.add (map par_size par_dims) 0.

Definition startup_message : string :=
  "The following message exists as Stan instantiates the model.".

(** A call returns the object, the trace of events so far, and its
    result; an exception leaves the assignments made before it. *)
Definition instantiate (self : t) (src : source) (xs : Data)
    (tr : list event) : t * list event * M unit :=
  let tr := tr ++ [Stan src xs] in
  match stan src xs with
  | Error e => (self, tr, Error e)
  | Ok m =>
      ({| file := file self; model_code := model_code self;
          flag_init := true;
          num_vars := Some (count_vars (par_dims m));
          model := Some m |}, tr, Ok tt)
  end.

Definition _initialize (self : t) (xs : Data) (tr : list event)
    : t * list event * M unit :=
  let tr := tr ++ [Print startup_message] in
  match file self with
  | Some f => instantiate self (File f) xs tr
  | None =>
      match model_code self with
      | Some c => instantiate self (ModelCode c) xs tr
      | None => (self, tr, Error AttributeError)
      end
  end.

(** The graph node that [tf.py_func(self._py_log_prob, [zs], ..)[0]]
    builds. *)
Inductive node : Type :=
| py_func (zs : list (list f32)).

Definition log_prob (self : t) (xs : Data) (zs : list (list f32))
    (tr : list event) : t * list event * M node :=
  if flag_init self then (self, tr, Ok (py_func zs))
  else
    match _initialize self xs tr with
    | (self', tr', Ok _) => (self', tr', Ok (py_func zs))
    | (self', tr', Error e) => (self', tr', Error e)
    end.

(** [z[a:b]] for [0 <= a]: Python clips a slice to the sequence. *)
Definition slice (z : list f32) (a b : nat) : list f32 :=
  take (b - a) (drop a z).

(** [arr.reshape(dim)]: the number of entries must be the product of
    the new dimensions. *)
Definition reshape (data : list f32) (dim : list nat) : M par_value :=
  if length data =? fold_left Nat.mul dim 1 then Ok (PArray dim data)
  else Error ValueError.

(** The loop over [zip(par_dims, model_pars)] that rebuilds the
    dictionary of one row [z]. *)
Fixpoint z_dict_loop (z : list f32) (pars : list (list nat * string))
    (d : z_dict) (idx : nat) : M z_dict :=
  match pars with
  | [] => Ok d
  | (dim, par) :: pars' =>
      let elems := sum_dim dim in
      if elems =? 0 then
        do x <- getitem z idx;
        z_dict_loop z pars' (setitem d par (PFloat (float_of x))) (idx + 1)
      else
        do a <- reshape (slice z idx (idx + elems)) dim;
        z_dict_loop z pars' (setitem d par a) (idx + elems)
  end.

(** The body of the loop over rows: the log density of one row. *)
Definition row_log_prob (self : t) (z : list f32) : M f64 :=
  match model self with
  | None => Error AttributeError
  | Some m =>
      do d <- z_dict_loop z (zip (par_dims m) (model_pars m)) [] 0;
      do z_unconst <- unconstrain_pars m d;
      fit_log_prob m z_unconst false
  end.

(** The loop [for b, z in enumerate(zs)], from index [b] on. *)
Fixpoint _py_log_prob_loop (self : t) (b : nat) (zs : list (list f32))
    (lp : list f32) : M (list f32) :=
  match zs with
  | [] => Ok lp
  | z :: zs' =>
      do v <- row_log_prob self z;
      _py_log_prob_loop self (S b) zs' (<[b := round32 v]> lp)
  end.

Definition _py_log_prob (self : t) (zs : list (list f32)) : M (list f32) :=
  let lp := replicate (length zs) zero32 in
  _py_log_prob_loop self 0 zs lp.

(** The numbers that a dictionary value holds, as Python floats. *)
Definition entries (v : par_value) : list f64 :=
  match v with
  | PFloat x => [x]
  | PArray _ data => map float_of data
  end.

(** The wrapper as the assignments of a completed [_initialize] leave
    it. *)
Definition initialized (self : t) (m : fit) : t :=
  {| file := file self; model_code := model_code self;
     flag_init := true;
     num_vars := Some (count_vars (par_dims m));
     model := Some m |}.

(** What one initialization attempt leaves in the trace. *)
Definition attempt (src : source) (xs : Data) : list event :=
  [Print startup_message; Stan src xs].

(** A sequence of [log_prob] calls by a program that catches the
    exceptions: every call is made, on the object the call before it
    left. *)
Fixpoint calls_caught (self : t) (calls : list (Data * list (list f32)))
    (tr : list event) : t * list event :=
  match calls with
  | [] => (self, tr)
  | (xs, zs) :: calls' =>
      let '(self', tr', _) := log_prob self xs zs tr in
      calls_caught self' calls' tr'
  end.
End Adapter.

Arguments Print {Data} msg.
Arguments Stan {Data} src data.
Arguments attempt {Data} src xs.
End StanModel.

(** ** Concrete numbers and objects

    IEEE 754 binary32 and binary64 arithmetic from the standard library's
    executable specification, and a few layers over it, on which the
    results below are evaluated. *)

Module Binary.
Import SpecFloat.

Definition rebase (prec emax : Z) (x : spec_float) : spec_float :=
  match x with
  | S754_finite s m e => binary_round prec emax s m e
  | _ => x
  end.

#[export] Instance floats : Floats := {|
  f32 := spec_float;
  f64 := spec_float;
  zero32 := S754_zero false;
  add32 := SFadd 24 128;
  round32 := rebase 24 128;
  float_of := rebase 53 1024
|}.

(** [1.0], [2.0] and [0.5] in binary32. *)
Definition one : f32 := S754_finite false 8388608 (-23).
Definition two : f32 := S754_finite false 8388608 (-22).
Definition half : f32 := S754_finite false 8388608 (-24).

(** A batch of [n] rows. *)
Definition batch (n : nat) (row : pyval) : pyval := Seq (replicate n row).

(** How many rows a value has. *)
Definition rows (x : pyval) : nat :=
  match x with
  | Scalar _ => 0
  | Seq l => length l
  end.

(** A layer over three variables with every capability. *)
Definition layer_a : Layer.t := {|
  Layer.shape := [3%Z];
  Layer.num_vars := 3;
  Layer.num_params := 6;
  Layer.is_multivariate := false;
  Layer.has_reparam := true;
  Layer.has_entropy := true;
  Layer.isinstance_Normal := true;
  Layer.sample := fun size =>
    Ok (batch (Z.to_nat size) (Seq [Scalar one; Scalar half; Scalar two]));
  Layer.log_prob := fun x => Ok (replicate (rows x) half);
  Layer.entropy := Ok one
|}.

(** A layer over two variables whose class defines neither [reparam]
    nor [entropy]. *)
Definition layer_b : Layer.t := {|
  Layer.shape := [2%Z];
  Layer.num_vars := 2;
  Layer.num_params := 2;
  Layer.is_multivariate := true;
  Layer.has_reparam := false;
  Layer.has_entropy := false;
  Layer.isinstance_Normal := false;
  Layer.sample := fun size =>
    Ok (batch (Z.to_nat size) (Seq [Scalar two; Scalar two]));
  Layer.log_prob := fun x => Ok (replicate (rows x) one);
  Layer.entropy := Error NotImplementedError
|}.

(** A layer over two variables with an entropy. *)
Definition layer_c : Layer.t := {|
  Layer.shape := [2%Z];
  Layer.num_vars := 2;
  Layer.num_params := 4;
  Layer.is_multivariate := false;
  Layer.has_reparam := true;
  Layer.has_entropy := true;
  Layer.isinstance_Normal := true;
  Layer.sample := fun size =>
    Ok (batch (Z.to_nat size) (Seq [Scalar half; Scalar one]));
  Layer.log_prob := fun x => Ok (replicate (rows x) one);
  Layer.entropy := Ok half
|}.

(** A store holding one list object, [[layer_a; layer_c]], at address 0,
    and the container constructed from that list. *)
Definition heap_ac : gmap nat (list Layer.t) := {[ 0 := [layer_a; layer_c] ]}.
Definition container_ac : Variational.t :=
  Variational.mk 0 [[3%Z]; [2%Z]] 5 10 true true true [false; false].

(** A store holding the list object [[layer_a]], and the container
    constructed from it. *)
Definition heap_a : gmap nat (list Layer.t) := {[ 0 := [layer_a] ]}.
Definition container_a : Variational.t :=
  Variational.mk 0 [[3%Z]] 3 6 true true true [false].

(** Two entries of four rows each, one per layer of [container_ac]. *)
Definition xs_ac : list pyval :=
  [batch 4 (Seq [Scalar one; Scalar one; Scalar one]);
   batch 4 (Seq [Scalar two; Scalar half])].

(** A PyMC3 wrapper over one variable whose log density is the variable. *)
Definition pymc3_identity : PyMC3Model.t := {|
  PyMC3Model.num_vars := 1;
  PyMC3Model.logp := fun z =>
    match z with
    | [x] => Ok (float_of x)
    | _ => Error ValueError
    end
|}.

(** A Stan engine whose unconstrained vector lists the dictionary's
    entries and whose log density is the first of them. *)
Definition flatten (d : StanModel.z_dict) : list f64 :=
  concat (map (fun kv => match snd kv with
                         | StanModel.PFloat x => [x]
                         | StanModel.PArray _ data => map float_of data
                         end) d).

Definition fit_of (par_dims : list (list nat)) (model_pars : list string)
    : StanModel.fit := {|
  StanModel.par_dims := par_dims;
  StanModel.model_pars := model_pars;
  StanModel.unconstrain_pars := fun d => Ok (flatten d);
  StanModel.fit_log_prob := fun u _ =>
    match u with
    | x :: _ => Ok x
    | [] => Error (BackendError 0)
    end
|}.

(** [parameters { real mu; }] *)
Definition fit_mu : StanModel.fit := fit_of [[]] ["mu"%string].

(** [parameters { real mu; vector[2] theta; }] *)
Definition fit_mu_theta : StanModel.fit :=
  fit_of [[]; [2]] ["mu"%string; "theta"%string].


(** [parameters { matrix[1,3] m; }] *)
Definition fit_matrix : StanModel.fit := fit_of [[1; 3]] ["m"%string].

(** Engines over observed data of type [nat]: one that instantiates the
    given fit on any data, and one that rejects the data [0]. *)
Definition stan_const (m : StanModel.fit) (src : StanModel.source) (data : nat)
    : M StanModel.fit := Ok m.

Definition stan_picky (m : StanModel.fit) (src : StanModel.source) (data : nat)
    : M StanModel.fit :=
  match data with
  | 0 => Error (BackendError 1)
  | S _ => Ok m
  end.

(** Some Stan program text. *)
Definition code : string := "data { } parameters { } model { }".

(** The wrapper constructed from model code, before its first call. *)
Definition stan_fresh : StanModel.t :=
  StanModel.mk None (Some code) false None None.

(** An initialized wrapper around a fit. *)
Definition stan_ready (m : StanModel.fit) : StanModel.t :=
  StanModel.mk None (Some code) true
    (Some (StanModel.count_vars (StanModel.par_dims m))) (Some m).

(** A store with two list objects, and the container constructed from the
    second. *)
Definition heap_two : gmap nat (list Layer.t) :=
  {[ 0 := [layer_a]; 1 := [layer_c] ]}.
Definition container_c : Variational.t :=
  Variational.mk 1 [[2%Z]] 2 4 true true true [false].

(** The batch without rows. *)
Definition no_rows : list (list f32) := [].

(** A [__str__] for the layers. *)
Definition layer_name (layer : Layer.t) : string :=
  if Layer.isinstance_Normal layer then "Normal" else "Distribution".
End Binary.

(** * Properties *)

(** ** The error monad and the builtins *)

Lemma bind_Ok_inv {A B : Type} (m : M A) (k : A -> M B) (b : B) :
  bind m k = Ok b -> exists a, m = Ok a /\ k a = Ok b.
Proof. destruct m as [a|e]; simpl; [eauto | discriminate]. Qed.

Section Builtins.
Context {A B : Type}.

(** A comprehension succeeds exactly when its body succeeds on every
    element, and then lists the results in order. *)
Lemma comprehension_Ok (f : A -> M B) (l : list A) (bs : list B) :
  comprehension f l = Ok bs <-> Forall2 (fun a b => f a = Ok b) l bs.
Proof.
  revert bs. induction l as [|a l IH]; intros bs; simpl.
  - split.
    + intros [= <-]. constructor.
    + intros H. inversion H. reflexivity.
  - split.
    + intros H. apply bind_Ok_inv in H as (b & Hb & H).
      destruct (comprehension f l) as [bs'|e] eqn:E; simpl in H; [|discriminate].
      injection H as <-. constructor; [exact Hb | now apply IH].
    + intros H. inversion H as [|? b ? bs' Hb Hbs]; subst.
      apply IH in Hbs. rewrite Hb, Hbs. reflexivity.
Qed.
End Builtins.

Lemma py_sum_snoc (l : list Z) (x : Z) :
  py_sum (l ++ [x]) = (py_sum l + x)%Z.
Proof. unfold py_sum. rewrite fold_left_app. reflexivity. Qed.

Lemma py_all_snoc (l : list bool) (b : bool) :
  py_all (l ++ [b]) = py_all l && b.
Proof.
  unfold py_all. rewrite forallb_app. simpl.
  now rewrite andb_true_r.
Qed.

(** [all] is false exactly when some element is. *)
Lemma py_all_false (l : list bool) :
  py_all l = false <-> In false l.
Proof.
  unfold py_all. induction l as [|b l IH]; simpl.
  - split; [discriminate | contradiction].
  - destruct b; simpl.
    + rewrite IH. split; [auto | intros [H|H]; [discriminate | exact H]].
    + split; auto.
Qed.

(** ** The container's aggregates *)

Section Aggregates.
Context {FL : Floats}.
Import Variational.

(** [add] extends the referenced list and keeps the reference. *)
Lemma add_layers (h : heap) (self : t) (ls : list Layer.t) (layer : Layer.t) :
  h !! layers self = Some ls ->
  fst (add h self layer) !! layers (snd (add h self layer)) = Some (ls ++ [layer]).
Proof.
  intros H. simpl. rewrite lookup_alter_eq, H. reflexivity.
Qed.

(** [add] moves every aggregate from the fold over [ls] to the fold over
    [ls ++ [layer]]. *)
Lemma add_aggregates (h : heap) (self : t) (ls : list Layer.t) (layer : Layer.t) :
  aggregates_of self ls ->
  aggregates_of (snd (add h self layer)) (ls ++ [layer]).
Proof.
  intros (Hs & Hv & Hp & Hm & Hr & He & Hn).
  unfold aggregates_of; simpl.
  rewrite !map_app; simpl.
  rewrite !py_sum_snoc, !py_all_snoc.
  rewrite Hs, Hv, Hp, Hm, Hr, He, Hn.
  repeat split.
Qed.

Lemma add_all_spec (adds : list Layer.t) :
  forall (h : heap) (self : t) (ls : list Layer.t),
    h !! layers self = Some ls ->
    aggregates_of self ls ->
    fst (add_all h self adds) !! layers (snd (add_all h self adds))
      = Some (ls ++ adds) /\
    aggregates_of (snd (add_all h self adds)) (ls ++ adds).
Proof.
  induction adds as [|l adds IH]; intros h self ls Hl Ha; cbn [add_all].
  - rewrite app_nil_r. auto.
  - destruct (add h self l) as [h' self'] eqn:E.
    pose proof (add_layers h self ls l Hl) as Hl'.
    pose proof (add_aggregates h self ls l Ha) as Ha'.
    rewrite E in Hl', Ha'. simpl in Hl', Ha'.
    replace (ls ++ l :: adds) with ((ls ++ [l]) ++ adds)
      by (rewrite <- app_assoc; reflexivity).
    apply IH; assumption.
Qed.

(** Both ways of constructing a container establish the aggregates. *)
Lemma init_spec (h h0 : heap) (arg : option loc) (c0 : t) :
  __init__ h arg = Some (h0, c0) ->
  exists ls, h0 !! layers c0 = Some ls /\ aggregates_of c0 ls /\
             ls = match arg with
                  | None => []
                  | Some r => default [] (h !! r)
                  end.
Proof.
  destruct arg as [r|]; simpl.
  - destruct (h !! r) as [ls|] eqn:E; [|discriminate].
    intros [= <- <-]. exists ls. simpl. rewrite E. repeat split.
  - intros [= <- <-]. exists []. simpl. rewrite lookup_insert_eq.
    repeat split.
Qed.

(** An [add] on a container that refers to another list object leaves
    this container's layer sequence alone. *)
Lemma add_elsewhere (h : heap) (self other : t) (layer : Layer.t) :
  layers other <> layers self ->
  layers_of (fst (add h other layer)) self = layers_of h self.
Proof.
  intros Hne. unfold layers_of. simpl.
  rewrite lookup_alter_ne by exact Hne. reflexivity.
Qed.
End Aggregates.

Section ContainerAggregates.
Context {FL : Floats}.
Import Variational.

(** C4. After any sequence of [add] calls on a constructed container,
    every aggregate attribute is the fold over the current layer
    sequence: [shape] and [is_multivariate] list the per-layer values,
    [num_vars] and [num_params] are the per-layer sums, and
    [is_reparam], [is_entropy], [is_normal] are the conjunctions of the
    per-layer capabilities (true on no layers). In particular
    [is_entropy] is false exactly when some layer lacks the entropy
    capability, and adding a layer with two variables to a container
    with five gives seven. *)
Theorem add_keeps_aggregates (h h0 : heap) (arg : option loc) (c0 : t)
    (adds : list Layer.t) :
  __init__ h arg = Some (h0, c0) ->
  let h' := fst (add_all h0 c0 adds) in
  let c' := snd (add_all h0 c0 adds) in
  h' !! layers c' = Some (layers_of h0 c0 ++ adds) /\
  aggregates_of c' (layers_of h' c') /\
  (layers_of h' c' = [] ->
     is_reparam c' = true /\ is_entropy c' = true /\ is_normal c' = true) /\
  (is_entropy c' = false <->
     exists l, In l (layers_of h' c') /\ Layer.has_entropy l = false) /\
  (forall l, num_vars c' = 5%Z -> Layer.num_vars l = 2%Z ->
             num_vars (snd (add h' c' l)) = 7%Z).
Proof.
  intros Hinit h' c'.
  destruct (init_spec h h0 arg c0 Hinit) as (ls & Hls & Hagg & _).
  destruct (add_all_spec adds h0 c0 ls Hls Hagg) as [Hl Ha].
  fold h' c' in Hl, Ha.
  assert (Hof : layers_of h' c' = ls ++ adds)
    by (unfold layers_of; rewrite Hl; reflexivity).
  assert (H0 : layers_of h0 c0 = ls)
    by (unfold layers_of; rewrite Hls; reflexivity).
  rewrite Hof, H0. repeat split; try assumption; try apply Ha.
  - destruct Ha as (_ & _ & _ & _ & Hrep & _). rewrite Hrep, H. reflexivity.
  - destruct Ha as (_ & _ & _ & _ & _ & Hent & _). rewrite Hent, H. reflexivity.
  - destruct Ha as (_ & _ & _ & _ & _ & _ & Hnor). rewrite Hnor, H. reflexivity.
  - intros He.
    destruct Ha as (_ & _ & _ & _ & _ & Hent & _).
    rewrite Hent in He. apply py_all_false in He.
    apply in_map_iff in He as (l & Hl' & Hin). eauto.
  - intros (l & Hin & Hl').
    destruct Ha as (_ & _ & _ & _ & _ & Hent & _).
    rewrite Hent. apply py_all_false. apply in_map_iff. eauto.
  - intros l H5 H2. simpl. rewrite H5, H2. reflexivity.
Qed.

(** C10. Constructing a container from a list of layers gives the same
    layer sequence and the same value of every aggregate attribute as
    constructing an empty container and adding the layers one by one in
    order. *)
Theorem init_layers_same_as_adds (h : heap) (r : loc) (ls : list Layer.t) :
  h !! r = Some ls ->
  exists h1 c1 h0 c0,
    __init__ h (Some r) = Some (h1, c1) /\
    __init__ h None = Some (h0, c0) /\
    let h2 := fst (add_all h0 c0 ls) in
    let c2 := snd (add_all h0 c0 ls) in
    layers_of h1 c1 = ls /\
    layers_of h2 c2 = ls /\
    shape c1 = shape c2 /\
    num_vars c1 = num_vars c2 /\
    num_params c1 = num_params c2 /\
    is_reparam c1 = is_reparam c2 /\
    is_normal c1 = is_normal c2 /\
    is_entropy c1 = is_entropy c2 /\
    is_multivariate c1 = is_multivariate c2.
Proof.
  intros Hr.
  destruct (__init__ h (Some r)) as [[h1 c1]|] eqn:E1;
    [|simpl in E1; rewrite Hr in E1; discriminate].
  destruct (__init__ h None) as [[h0 c0]|] eqn:E0; [|discriminate].
  exists h1, c1, h0, c0. split; [reflexivity|]. split; [reflexivity|].
  intros h2 c2.
  destruct (init_spec _ _ _ _ E1) as (l1 & Hl1 & Ha1 & ->).
  destruct (init_spec _ _ _ _ E0) as (l0 & Hl0 & Ha0 & ->).
  rewrite Hr in *. simpl in Hl1, Ha1.
  destruct (add_all_spec ls h0 c0 [] Hl0 Ha0) as [Hl2 Ha2].
  fold h2 c2 in Hl2, Ha2. simpl in Hl2, Ha2.
  destruct Ha1 as (S1 & V1 & P1 & M1 & R1 & E1' & N1).
  destruct Ha2 as (S2 & V2 & P2 & M2 & R2 & E2' & N2).
  unfold layers_of. rewrite Hl1, Hl2. simpl.
  repeat split; congruence.
Qed.
End ContainerAggregates.

Lemma add_keeps_aggregates_witness :
  exists h0 c0,
    Variational.__init__ ∅ None = Some (h0, c0) /\
    Variational.aggregates_of
      (snd (Variational.add_all h0 c0 [Binary.layer_a; Binary.layer_b]))
      [Binary.layer_a; Binary.layer_b].
Proof.
  eexists _, _. split; [reflexivity|].
  pose proof (add_keeps_aggregates ∅ _ None _
                [Binary.layer_a; Binary.layer_b] eq_refl) as (_ & Ha & _).
  exact Ha.
Defined.

Lemma init_layers_same_as_adds_witness :
  Binary.heap_ac !! 0 = Some [Binary.layer_a; Binary.layer_c] /\
  exists h1 c1 h0 c0,
    Variational.__init__ Binary.heap_ac (Some 0) = Some (h1, c1) /\
    Variational.__init__ Binary.heap_ac None = Some (h0, c0) /\
    Variational.num_vars c1
      = Variational.num_vars
          (snd (Variational.add_all h0 c0 [Binary.layer_a; Binary.layer_c])) /\
    Variational.num_vars c1 = 5%Z.
Proof.
  split; [reflexivity|].
  destruct (init_layers_same_as_adds Binary.heap_ac 0
              [Binary.layer_a; Binary.layer_c] eq_refl)
    as (h1 & c1 & h0 & c0 & E1 & E0 & H).
  destruct H as (_ & _ & _ & Hv & _).
  exists h1, c1, h0, c0.
  split; [exact E1|]. split; [exact E0|]. split; [exact Hv|].
  clear -E1. injection E1 as _ <-. reflexivity.
Defined.


(** ** Sampling and densities of the container *)

Section ContainerMethods.
Context {FL : Floats}.
Import Variational.

(** A value is not the one-element sequence holding it. *)
Lemma not_wrapped (s : pyval) : s <> Seq [s].
Proof.
  intros H. apply (f_equal depth) in H. simpl in H. lia.
Qed.

(** Adding a tensor of the same length is elementwise. *)
Lemma tf_add_same_length (a b : list f32) :
  length a = length b -> tf_add a b = Ok (zip_with add32 a b).
Proof.
  intros H. unfold tf_add. rewrite H, Nat.eqb_refl. reflexivity.
Qed.

(** The accumulation loop, started at index [k] on an accumulator of
    length [n], when every remaining layer yields [n] densities for its
    own entry of [xl]. *)
Lemma log_prob_loop_spec (xl : list pyval) (n : nat) (ls : list Layer.t) :
  forall (k : nat) (acc : list f32) (lps : list (list f32)),
    length acc = n ->
    Forall2 (fun lx lp => Layer.log_prob (fst lx) (snd lx) = Ok lp /\ length lp = n)
            (zip ls (drop k xl)) lps ->
    length ls <= length (drop k xl) ->
    log_prob_loop (Seq xl) k ls acc = Ok (fold_left (zip_with add32) lps acc).
Proof.
  induction ls as [|layer ls IH]; intros k acc lps Hacc HF Hlen.
  - inversion HF. reflexivity.
  - destruct (drop k xl) as [|x rest] eqn:Ed; [simpl in Hlen; lia|].
    assert (Hx : xl !! k = Some x).
    { pose proof (lookup_drop xl k 0) as Hd.
      rewrite Ed, Nat.add_0_r in Hd. symmetry. exact Hd. }
    assert (Hrest : drop (S k) xl = rest).
    { pose proof (drop_S xl x k Hx) as Hd. rewrite Ed in Hd. congruence. }
    subst rest.
    simpl in HF. inversion HF as [|? lp ? lps' [Hlp Hn] HF']; subst.
    simpl in Hlp. cbn [log_prob_loop index]. unfold getitem.
    rewrite Hx. cbn [bind]. rewrite Hlp. cbn [bind].
    rewrite tf_add_same_length by congruence. cbn [bind fold_left].
    apply IH.
    + rewrite length_zip_with. lia.
    + exact HF'.
    + simpl in Hlen. lia.
Qed.

(** Entry [i] of an elementwise accumulation is the accumulation of the
    entries [i]. *)
Lemma fold_zip_with_lookup (n i : nat) (lps : list (list f32)) :
  forall (acc : list f32) (a : f32),
    Forall (fun lp => length lp = n) lps ->
    length acc = n ->
    acc !! i = Some a ->
    length (fold_left (zip_with add32) lps acc) = n /\
    exists col, Forall2 (fun lp v => lp !! i = Some v) lps col /\
                fold_left (zip_with add32) lps acc !! i = Some (fold_left add32 col a).
Proof.
  induction lps as [|lp lps IH]; intros acc a HF Hacc Ha; simpl.
  - split; [exact Hacc|]. exists []. split; [constructor | exact Ha].
  - apply Forall_cons in HF as [Hlp HF'].
    assert (Hi : i < length lp).
    { rewrite Hlp, <- Hacc. eapply lookup_lt_Some; eauto. }
    destruct (lookup_lt_is_Some_2 lp i Hi) as [v Hv].
    destruct (IH (zip_with add32 acc lp) (add32 a v) HF') as (Hlen & col & Hcol & Hres).
    + rewrite length_zip_with. lia.
    + rewrite lookup_zip_with, Ha, Hv. reflexivity.
    + split; [exact Hlen|]. exists (v :: col). split; [constructor; assumption | exact Hres].
Qed.

Lemma Forall2_snd_Forall {A B : Type} (P : A -> B -> Prop) (Q : B -> Prop)
    (l : list A) (k : list B) :
  (forall a b, P a b -> Q b) -> Forall2 P l k -> Forall Q k.
Proof.
  intros HPQ HF. induction HF; constructor; eauto.
Qed.

(** C3. For a container with two or more layers and a list [xl] with one
    entry per layer, all entries with leading dimension [n], where each
    layer yields its [n] densities [lp] on its entry: [log_prob] returns
    a vector of length [n], obtained from the all-zero vector of length
    [n] by adding the layers' vectors in layer order; its entry [i] is
    zero plus the layers' entries [i], in layer order. *)
Theorem log_prob_sums_layers (h : heap) (c : t) (xl : list pyval) (n : nat)
    (lps : list (list f32)) :
  2 <= length (layers_of h c) ->
  length xl = length (layers_of h c) ->
  Forall (fun x => head (get_dims x) = Some n) xl ->
  Forall2 (fun lx lp => Layer.log_prob (fst lx) (snd lx) = Ok lp /\ length lp = n)
          (zip (layers_of h c) xl) lps ->
  log_prob h c (Seq xl) = Ok (fold_left (zip_with add32) lps (tf_zeros n)) /\
  length (fold_left (zip_with add32) lps (tf_zeros n)) = n /\
  forall i, i < n ->
    exists col, Forall2 (fun lp v => lp !! i = Some v) lps col /\
                fold_left (zip_with add32) lps (tf_zeros n) !! i
                  = Some (fold_left add32 col zero32).
Proof.
  intros H2 Hxl Hdims HF.
  assert (Hlens : Forall (fun lp => length lp = n) lps).
  { eapply Forall2_snd_Forall; [|exact HF]. intros a b [_ Hb]. exact Hb. }
  split; [|split].
  - unfold log_prob.
    destruct (length (layers_of h c) =? 1) eqn:E1;
      [apply Nat.eqb_eq in E1; lia|].
    destruct xl as [|x0 xl']; [simpl in Hxl; lia|].
    inversion Hdims as [|? ? Hd0 _]; subst.
    rewrite head_lookup in Hd0.
    cbn [index]. unfold getitem at 1. cbn [lookup list_lookup bind].
    unfold getitem. rewrite Hd0. cbn [bind].
    apply (log_prob_loop_spec _ n).
    + apply length_replicate.
    + exact HF.
    + simpl drop. lia.
  - destruct n as [|n'].
    + clear -Hlens. unfold tf_zeros. simpl.
      induction lps as [|lp lps IH]; [reflexivity|].
      apply Forall_cons in Hlens as [Hlp Hl']. simpl.
      destruct lp; [|discriminate]. apply IH. exact Hl'.
    + destruct (fold_zip_with_lookup (S n') 0 lps (tf_zeros (S n')) zero32 Hlens)
        as [Hlen _]; [apply length_replicate | reflexivity | exact Hlen].
  - intros i Hi.
    destruct (fold_zip_with_lookup n i lps (tf_zeros n) zero32 Hlens)
      as (_ & col & Hcol & Hres).
    + apply length_replicate.
    + apply lookup_replicate_2. exact Hi.
    + exists col. split; assumption.
Qed.

(** C5. A container holding exactly one layer returns that layer's
    [sample] result itself, not a one-element sequence around it, and that
    layer's [log_prob] result itself; a container holding more than one
    layer returns the sequence of the per-layer samples, one per layer, in
    layer order. *)
Theorem single_layer_unwrapped (h : heap) (c : t) :
  (forall layer, layers_of h c = [layer] ->
     (forall size, sample h c size = Layer.sample layer size) /\
     (forall size s, Layer.sample layer size = Ok s ->
                     sample h c size <> Ok (Seq [s])) /\
     (forall xs, log_prob h c xs = Layer.log_prob layer xs)) /\
  (1 < length (layers_of h c) ->
     forall size ss,
       Forall2 (fun layer s => Layer.sample layer size = Ok s) (layers_of h c) ss ->
       sample h c size = Ok (Seq ss) /\ length ss = length (layers_of h c)).
Proof.
  split.
  - intros layer Hl. split; [|split].
    + intros size. unfold sample. rewrite Hl. simpl.
      destruct (Layer.sample layer size); reflexivity.
    + intros size s Hs Hw.
      assert (Hsame : sample h c size = Ok s).
      { unfold sample. rewrite Hl. simpl. rewrite Hs. reflexivity. }
      rewrite Hsame in Hw. injection Hw as Hw. exact (not_wrapped s Hw).
    + intros xs. unfold log_prob. rewrite Hl. reflexivity.
  - intros Hlen size ss HF.
    pose proof (Forall2_length _ _ _ HF) as Hss.
    apply comprehension_Ok in HF.
    unfold sample. rewrite HF. cbn [bind].
    split; [|lia].
    destruct ss as [|s1 [|s2 ss']]; simpl in Hss; try lia; reflexivity.
Qed.

(** The entropy loop adds the layers' entropies to [out] in order. *)
Lemma entropy_loop_spec (ls : list Layer.t) :
  forall (es : list f32) (out : f32),
    Forall2 (fun layer e => Layer.entropy layer = Ok e) ls es ->
    entropy_loop ls out = Ok (fold_left add32 es out).
Proof.
  induction ls as [|layer ls IH]; intros es out HF.
  - inversion HF. reflexivity.
  - inversion HF as [|? e ? es' He HF']; subst.
    simpl. rewrite He. simpl. apply IH. exact HF'.
Qed.

(** C9. [entropy] is the sum of the layers' entropies taken in layer
    order from the starting value zero: zero on no layers, and on two
    layers zero plus the first plus the second, which is the first plus
    the second when adding to zero gives the number itself. *)
Theorem entropy_sums_layers (h : heap) (c : t) :
  (forall es,
     Forall2 (fun layer e => Layer.entropy layer = Ok e) (layers_of h c) es ->
     entropy h c = Ok (fold_left add32 es zero32)) /\
  (layers_of h c = [] -> entropy h c = Ok zero32) /\
  (forall l1 l2 e1 e2,
     layers_of h c = [l1; l2] ->
     Layer.entropy l1 = Ok e1 ->
     Layer.entropy l2 = Ok e2 ->
     entropy h c = Ok (add32 (add32 zero32 e1) e2) /\
     (add32 zero32 e1 = e1 -> entropy h c = Ok (add32 e1 e2))).
Proof.
  split; [|split].
  - intros es HF. unfold entropy. apply entropy_loop_spec. exact HF.
  - intros Hl. unfold entropy. rewrite Hl. reflexivity.
  - intros l1 l2 e1 e2 Hl H1 H2.
    assert (He : entropy h c = Ok (add32 (add32 zero32 e1) e2)).
    { unfold entropy. rewrite Hl. simpl. rewrite H1. simpl. rewrite H2. reflexivity. }
    split; [exact He|]. intros Hid. rewrite He, Hid. reflexivity.
Qed.
End ContainerMethods.

Lemma log_prob_sums_layers_witness :
  Variational.layers_of Binary.heap_ac Binary.container_ac
    = [Binary.layer_a; Binary.layer_c] /\
  Variational.log_prob Binary.heap_ac Binary.container_ac (Seq Binary.xs_ac)
    = Ok (fold_left (zip_with add32)
            [replicate 4 Binary.half; replicate 4 Binary.one] (tf_zeros 4)).
Proof.
  split; [reflexivity|].
  apply (log_prob_sums_layers Binary.heap_ac Binary.container_ac Binary.xs_ac 4
           [replicate 4 Binary.half; replicate 4 Binary.one]).
  - vm_compute. lia.
  - reflexivity.
  - repeat constructor.
  - repeat constructor.
Defined.

Lemma single_layer_unwrapped_witness :
  Variational.layers_of Binary.heap_a Binary.container_a = [Binary.layer_a] /\
  Variational.sample Binary.heap_a Binary.container_a 1
    = Layer.sample Binary.layer_a 1 /\
  1 < length (Variational.layers_of Binary.heap_ac Binary.container_ac) /\
  Variational.sample Binary.heap_ac Binary.container_ac 1
    = Ok (Seq [Binary.batch 1 (Seq [Scalar Binary.one; Scalar Binary.half; Scalar Binary.two]);
               Binary.batch 1 (Seq [Scalar Binary.half; Scalar Binary.one])]).
Proof.
  split; [reflexivity|]. split.
  - destruct (single_layer_unwrapped Binary.heap_a Binary.container_a)
      as [Hone _].
    destruct (Hone Binary.layer_a eq_refl) as [Hsample _].
    apply Hsample.
  - split; [vm_compute; lia|].
    destruct (single_layer_unwrapped Binary.heap_ac Binary.container_ac)
      as [_ Hmany].
    apply Hmany.
    + vm_compute. lia.
    + repeat constructor.
Defined.

Lemma entropy_sums_layers_witness :
  Variational.layers_of Binary.heap_ac Binary.container_ac
    = [Binary.layer_a; Binary.layer_c] /\
  add32 zero32 Binary.one = Binary.one /\
  Variational.entropy Binary.heap_ac Binary.container_ac
    = Ok (add32 Binary.one Binary.half).
Proof.
  split; [reflexivity|]. split; [reflexivity|].
  apply (entropy_sums_layers Binary.heap_ac Binary.container_ac)
    with (l1 := Binary.layer_a) (l2 := Binary.layer_c); reflexivity.
Defined.


(** ** The per-row routines of the wrappers *)

Lemma comprehension_In_Error {A B : Type} (f : A -> M B) (l : list A) (a : A) (e : exn) :
  In a l -> f a = Error e -> exists e', comprehension f l = Error e'.
Proof.
  induction l as [|x l IH]; intros Hin Hf; [contradiction|].
  simpl. destruct (f x) as [b|ex] eqn:Ex; simpl; [|eauto].
  destruct Hin as [->|Hin]; [congruence|].
  destruct (IH Hin Hf) as [e' He']. rewrite He'. simpl. eauto.
Qed.

Lemma comprehension_lookup {A B : Type} (f : A -> M B) (l : list A) (bs : list B) :
  comprehension f l = Ok bs ->
  length bs = length l /\
  forall i a, l !! i = Some a -> exists b, f a = Ok b /\ bs !! i = Some b.
Proof.
  intros H. apply comprehension_Ok in H.
  split; [symmetry; eapply Forall2_length; eauto|].
  induction H as [|a b l bs Hab HF IH]; intros i x Hx; [discriminate|].
  destruct i as [|i]; simpl in *.
  - injection Hx as <-. eauto.
  - eauto.
Qed.

Section RowRoutines.
Context {FL : Floats}.

(** The PyMC3 loop over the indices [k, k+1, .., k+m-1], when the output
    buffer already holds [pre] at the indices below [k]. *)
Lemma pymc3_loop_spec (self : PyMC3Model.t) (zs : list (list f32)) (m : nat) :
  forall (k : nat) (pre suf : list f32),
    length pre = k ->
    length suf = m ->
    k + m = length zs ->
    PyMC3Model._py_log_prob_loop self zs (seq k m) (pre ++ suf)
      = do vs <- comprehension (PyMC3Model.logp self) (drop k zs);
        Ok (pre ++ map round32 vs).
Proof.
  induction m as [|m IH]; intros k pre suf Hpre Hsuf Hlen.
  - destruct suf; [|discriminate].
    rewrite drop_ge by lia. simpl. reflexivity.
  - destruct suf as [|s suf]; [discriminate|].
    destruct (lookup_lt_is_Some_2 zs k ltac:(lia)) as [z Hz].
    rewrite (drop_S zs z k Hz).
    cbn [seq PyMC3Model._py_log_prob_loop comprehension].
    unfold getitem. rewrite Hz. cbn [bind].
    destruct (PyMC3Model.logp self z) as [v|e]; cbn [bind]; [|reflexivity].
    replace (<[k := round32 v]> (pre ++ s :: suf))
      with ((pre ++ [round32 v]) ++ suf).
    + rewrite (IH (S k) (pre ++ [round32 v]) suf).
      * destruct (comprehension (PyMC3Model.logp self) (drop (S k) zs));
          cbn [bind map]; [|reflexivity].
        rewrite <- app_assoc. reflexivity.
      * rewrite length_app. simpl. lia.
      * simpl in Hsuf. lia.
      * lia.
    + rewrite insert_app_r_alt by lia.
      rewrite Hpre, Nat.sub_diag, <- app_assoc. reflexivity.
Qed.

Lemma pymc3_py_log_prob_spec (self : PyMC3Model.t) (zs : list (list f32)) :
  PyMC3Model._py_log_prob self zs
    = do vs <- comprehension (PyMC3Model.logp self) zs; Ok (map round32 vs).
Proof.
  unfold PyMC3Model._py_log_prob.
  apply (pymc3_loop_spec self zs (length zs) 0 [] (replicate (length zs) zero32)).
  - reflexivity.
  - apply length_replicate.
  - reflexivity.
Qed.

(** The Stan loop from index [b] on, when the output buffer already holds
    [pre] at the indices below [b]. *)
Lemma stan_loop_spec (self : StanModel.t) (zs : list (list f32)) :
  forall (b : nat) (pre suf : list f32),
    length pre = b ->
    length suf = length zs ->
    StanModel._py_log_prob_loop self b zs (pre ++ suf)
      = do vs <- comprehension (StanModel.row_log_prob self) zs;
        Ok (pre ++ map round32 vs).
Proof.
  induction zs as [|z zs IH]; intros b pre suf Hpre Hsuf.
  - destruct suf; [|discriminate]. reflexivity.
  - destruct suf as [|s suf]; [discriminate|].
    cbn [StanModel._py_log_prob_loop comprehension].
    destruct (StanModel.row_log_prob self z) as [v|e]; cbn [bind]; [|reflexivity].
    replace (<[b := round32 v]> (pre ++ s :: suf))
      with ((pre ++ [round32 v]) ++ suf).
    + rewrite (IH (S b) (pre ++ [round32 v]) suf).
      * destruct (comprehension (StanModel.row_log_prob self) zs);
          cbn [bind map]; [|reflexivity].
        rewrite <- app_assoc. reflexivity.
      * rewrite length_app. simpl. lia.
      * simpl in Hsuf. lia.
    + rewrite insert_app_r_alt by lia.
      rewrite Hpre, Nat.sub_diag, <- app_assoc. reflexivity.
Qed.

Lemma stan_py_log_prob_spec (self : StanModel.t) (zs : list (list f32)) :
  StanModel._py_log_prob self zs
    = do vs <- comprehension (StanModel.row_log_prob self) zs;
      Ok (map round32 vs).
Proof.
  unfold StanModel._py_log_prob.
  apply (stan_loop_spec self zs 0 [] (replicate (length zs) zero32)).
  - reflexivity.
  - apply length_replicate.
Qed.

(** What a routine that maps a fallible row function over the batch and
    stores the rounded values returns. *)
Lemma rowwise_result (f : list f32 -> M f64) (zs : list (list f32)) :
  (forall vs, Forall2 (fun z v => f z = Ok v) zs vs ->
     (do vs' <- comprehension f zs; Ok (map round32 vs')) = Ok (map round32 vs)) /\
  (forall lp, (do vs' <- comprehension f zs; Ok (map round32 vs')) = Ok lp ->
     length lp = length zs /\
     forall s z, zs !! s = Some z ->
       exists v, f z = Ok v /\ lp !! s = Some (round32 v)).
Proof.
  split.
  - intros vs HF. apply comprehension_Ok in HF. rewrite HF. reflexivity.
  - intros lp H. apply bind_Ok_inv in H as (vs & Hvs & [= <-]).
    destruct (comprehension_lookup f zs vs Hvs) as [Hlen Hrows].
    split; [rewrite length_map; exact Hlen|].
    intros s z Hz. destruct (Hrows s z Hz) as (v & Hv & Hs).
    exists v. split; [exact Hv|].
    rewrite list_lookup_fmap, Hs. reflexivity.
Qed.

(** C8. For both wrappers, the per-row routine on a batch of rows returns
    one output per row, in row order: when every row has a log density the
    routine returns them (as float32), and whenever it returns a vector,
    that vector has the length of the batch and its entry [s] is the log
    density of row [s]. *)
Theorem py_log_prob_rowwise (zs : list (list f32)) :
  (forall self : PyMC3Model.t,
     (forall vs, Forall2 (fun z v => PyMC3Model.logp self z = Ok v) zs vs ->
        PyMC3Model._py_log_prob self zs = Ok (map round32 vs)) /\
     (forall lp, PyMC3Model._py_log_prob self zs = Ok lp ->
        length lp = length zs /\
        forall s z, zs !! s = Some z ->
          exists v, PyMC3Model.logp self z = Ok v /\ lp !! s = Some (round32 v))) /\
  (forall self : StanModel.t,
     (forall vs, Forall2 (fun z v => StanModel.row_log_prob self z = Ok v) zs vs ->
        StanModel._py_log_prob self zs = Ok (map round32 vs)) /\
     (forall lp, StanModel._py_log_prob self zs = Ok lp ->
        length lp = length zs /\
        forall s z, zs !! s = Some z ->
          exists v, StanModel.row_log_prob self z = Ok v /\
                    lp !! s = Some (round32 v))).
Proof.
  split; intros self.
  - rewrite pymc3_py_log_prob_spec. apply rowwise_result.
  - rewrite stan_py_log_prob_spec. apply rowwise_result.
Qed.
End RowRoutines.


(** ** Construction and initialization of the Stan wrapper *)

Lemma fold_add_sum_list (l : list nat) (a : nat) :
  fold_left Nat.add l a = a + sum_list l.
Proof.
  revert a. induction l as [|x l IH]; intros a; simpl.
  - lia.
  - rewrite IH. lia.
Qed.


Lemma count_vars_sum_list (par_dims : list (list nat)) :
  StanModel.count_vars par_dims = sum_list (map StanModel.par_size par_dims).
Proof. unfold StanModel.count_vars. rewrite fold_add_sum_list. reflexivity. Qed.

Section StanLifecycle.
Context {FL : Floats}.
Variable Data : Type.
Variable stan : StanModel.source -> Data -> M StanModel.fit.

Abbreviation log_prob := (StanModel.log_prob Data stan).

(** C1, as amended. Construction succeeds exactly when at least one of
    [file] and [model_code] is supplied; with neither it raises
    [NotImplementedError]. A supplied [file] is kept and a [model_code]
    supplied with it is dropped; [model_code] is kept when [file] is not
    supplied. *)
Theorem init_needs_a_source (file model_code : option string) :
  ((exists self, StanModel.__init__ file model_code = Ok self) <->
   (file <> None \/ model_code <> None)) /\
  (file = None -> model_code = None ->
   StanModel.__init__ file model_code = Error NotImplementedError) /\
  (forall self, StanModel.__init__ file model_code = Ok self ->
     StanModel.flag_init self = false /\
     StanModel.file self = file /\
     StanModel.model_code self = match file with
                                 | Some _ => None
                                 | None => model_code
                                 end).
Proof.
  split; [|split].
  - split.
    + intros [self H]. destruct file, model_code; simpl in H;
        try discriminate; (left; discriminate) || (right; discriminate).
    + intros [H|H]; destruct file, model_code; simpl;
        eauto; contradiction.
  - intros -> ->. reflexivity.
  - intros self H. destruct file, model_code; simpl in H;
      try discriminate; injection H as <-; auto.
Qed.

(** A wrapper that is already initialized answers [log_prob] without
    touching itself or the outside, whatever data it is given. *)
Lemma log_prob_initialized (self : StanModel.t) (xs : Data)
    (zs : list (list f32)) (tr : list (StanModel.event Data)) :
  StanModel.flag_init self = true ->
  log_prob self xs zs tr = (self, tr, Ok (StanModel.py_func zs)).
Proof. intros H. unfold StanModel.log_prob. rewrite H. reflexivity. Qed.

Lemma init_source_of (file model_code : option string) (self : StanModel.t) :
  StanModel.__init__ file model_code = Ok self ->
  StanModel.flag_init self = false /\
  StanModel.num_vars self = None /\
  exists src, StanModel.source_of self = Some src.
Proof.
  destruct file as [f|], model_code as [c|]; simpl;
    intros [= <-] || discriminate; unfold StanModel.source_of; simpl; eauto.
Qed.

(** The first call on an uninitialized wrapper: the start-up message and
    one engine instantiation on this call's data; the wrapper becomes
    initialized exactly when the engine returns. *)
Lemma log_prob_first (self : StanModel.t) (src : StanModel.source) (xs : Data)
    (zs : list (list f32)) (tr : list (StanModel.event Data)) :
  StanModel.flag_init self = false ->
  StanModel.source_of self = Some src ->
  log_prob self xs zs tr
    = match stan src xs with
      | Ok m =>
          ({| StanModel.file := StanModel.file self;
              StanModel.model_code := StanModel.model_code self;
              StanModel.flag_init := true;
              StanModel.num_vars := Some (StanModel.count_vars (StanModel.par_dims m));
              StanModel.model := Some m |},
           tr ++ [StanModel.Print StanModel.startup_message; StanModel.Stan src xs],
           Ok (StanModel.py_func zs))
      | Error e =>
          (self,
           tr ++ [StanModel.Print StanModel.startup_message; StanModel.Stan src xs],
           Error e)
      end.
Proof.
  intros Hflag Hsrc. unfold StanModel.log_prob. rewrite Hflag.
  unfold StanModel.source_of in Hsrc.
  unfold StanModel._initialize, StanModel.instantiate. cbv zeta.
  destruct (StanModel.file self) as [f|].
  - injection Hsrc as <-. rewrite <- !app_assoc. cbn [app].
    destruct (stan (StanModel.File f) xs); reflexivity.
  - destruct (StanModel.model_code self) as [c|]; [|discriminate].
    injection Hsrc as <-. rewrite <- !app_assoc. cbn [app].
    destruct (stan (StanModel.ModelCode c) xs); reflexivity.
Qed.

End StanLifecycle.


(** ** Rows whose length is not the declared total *)

Section RowLength.
Context {FL : Floats}.

Lemma slice_app_le (z extra : list f32) (a b : nat) :
  a <= b -> b <= length z ->
  StanModel.slice (z ++ extra) a b = StanModel.slice z a b.
Proof.
  intros Hab Hb. unfold StanModel.slice.
  rewrite drop_app_le by lia.
  rewrite take_app_le; [reflexivity|].
  rewrite length_drop. lia.
Qed.

Lemma length_slice (z : list f32) (a b : nat) :
  length (StanModel.slice z a b) = Nat.min (b - a) (length z - a).
Proof.
  unfold StanModel.slice. rewrite length_take, length_drop. reflexivity.
Qed.

(** Entries beyond those that the parameters consume are never read. *)
Lemma z_dict_loop_extra (z extra : list f32) (pars : list (list nat * string)) :
  forall (d : StanModel.z_dict) (idx : nat),
    idx + sum_list_with (fun p => StanModel.par_size (fst p)) pars <= length z ->
    StanModel.z_dict_loop (z ++ extra) pars d idx
      = StanModel.z_dict_loop z pars d idx.
Proof.
  induction pars as [|[dim par] pars IH]; intros d idx Hlen; [reflexivity|].
  cbn [StanModel.z_dict_loop sum_list_with fst] in *.
  assert (Hsz : StanModel.par_size dim
                = if StanModel.sum_dim dim =? 0 then 1 else StanModel.sum_dim dim)
    by reflexivity.
  destruct (StanModel.sum_dim dim =? 0) eqn:E; rewrite Hsz in Hlen.
  - unfold getitem. rewrite lookup_app_l by lia.
    destruct (z !! idx) as [x|]; cbn [bind]; [|reflexivity].
    apply IH. lia.
  - rewrite slice_app_le by lia.
    destruct (StanModel.reshape _ dim) as [a|e]; cbn [bind]; [|reflexivity].
    apply IH. lia.
Qed.

(** With scalar and vector parameters only, a row that is too short for
    the parameters still to be read makes the loop raise. *)
Lemma z_dict_loop_short (z : list f32) (pars : list (list nat * string)) :
  forall (d : StanModel.z_dict) (idx : nat),
    Forall (fun p => length (fst p) <= 1) pars ->
    idx <= length z ->
    length z < idx + sum_list_with (fun p => StanModel.par_size (fst p)) pars ->
    StanModel.z_dict_loop z pars d idx = Error IndexError \/
    StanModel.z_dict_loop z pars d idx = Error ValueError.
Proof.
  induction pars as [|[dim par] pars IH]; intros d idx Hrank Hidx Hlen.
  - simpl in Hlen. lia.
  - apply Forall_cons in Hrank as [Hdim Hrank].
    cbn [StanModel.z_dict_loop sum_list_with fst] in *.
    assert (Hsz : StanModel.par_size dim
                  = if StanModel.sum_dim dim =? 0 then 1 else StanModel.sum_dim dim)
      by reflexivity.
    destruct (StanModel.sum_dim dim =? 0) eqn:E; rewrite Hsz in Hlen.
    + unfold getitem. destruct (z !! idx) as [x|] eqn:Ex; cbn [bind]; [|auto].
      apply lookup_lt_Some in Ex. apply IH; [exact Hrank | lia | lia].
    + apply Nat.eqb_neq in E.
      destruct dim as [|k [|k' dim]]; [contradiction E; reflexivity | | simpl in Hdim; lia].
      change (StanModel.sum_dim [k]) with k in *.
      unfold StanModel.reshape. rewrite length_slice.
      change (fold_left Nat.mul [k] 1) with (1 * k).
      destruct (Nat.min (idx + k - idx) (length z - idx) =? 1 * k) eqn:Ek;
        cbn [bind]; [|auto].
      apply Nat.eqb_eq in Ek. apply IH; [exact Hrank | lia | lia].
Qed.

(** C2, as amended. The per-row routine of an initialized wrapper makes
    no length check. A row with more entries than the declared total is
    evaluated exactly as its leading entries: the extra entries are
    ignored. When every declared parameter is a scalar or a vector, a row
    with fewer entries than the declared total raises [IndexError] or
    [ValueError], and so does the call on any batch holding such a row. *)
Theorem row_length_is_not_checked (self : StanModel.t) (m : StanModel.fit) :
  StanModel.model self = Some m ->
  length (StanModel.model_pars m) = length (StanModel.par_dims m) ->
  (forall z extra,
     StanModel.count_vars (StanModel.par_dims m) <= length z ->
     StanModel.row_log_prob self (z ++ extra) = StanModel.row_log_prob self z) /\
  (Forall (fun dim => length dim <= 1) (StanModel.par_dims m) ->
   forall z,
     length z < StanModel.count_vars (StanModel.par_dims m) ->
     (StanModel.row_log_prob self z = Error IndexError \/
      StanModel.row_log_prob self z = Error ValueError) /\
     forall zs, In z zs -> exists e, StanModel._py_log_prob self zs = Error e).
Proof.
  intros Hm Hpars.
  assert (Hfst : (zip (StanModel.par_dims m) (StanModel.model_pars m)).*1
                 = StanModel.par_dims m) by (apply fst_zip; lia).
  assert (Hsum : sum_list_with (fun p => StanModel.par_size (fst p))
                   (zip (StanModel.par_dims m) (StanModel.model_pars m))
                 = StanModel.count_vars (StanModel.par_dims m)).
  { rewrite count_vars_sum_list.
    set (l := zip (StanModel.par_dims m) (StanModel.model_pars m)) in *.
    clearbody l. rewrite <- Hfst. clear.
    induction l as [|p l IH]; simpl; [reflexivity | now rewrite IH]. }
  split.
  - intros z extra Hlen. unfold StanModel.row_log_prob. rewrite Hm.
    rewrite z_dict_loop_extra by (rewrite Hsum; simpl; exact Hlen).
    reflexivity.
  - intros Hrank z Hlen.
    assert (Hrow : StanModel.row_log_prob self z = Error IndexError \/
                   StanModel.row_log_prob self z = Error ValueError).
    { unfold StanModel.row_log_prob. rewrite Hm.
      destruct (z_dict_loop_short z
                  (zip (StanModel.par_dims m) (StanModel.model_pars m)) [] 0)
        as [H|H]; try (rewrite H; auto).
      - rewrite <- Hfst in Hrank. clear -Hrank.
        induction (zip (StanModel.par_dims m) (StanModel.model_pars m))
          as [|p l IH]; [constructor|].
        apply Forall_cons in Hrank as [Hp Hl]. constructor; auto.
      - lia.
      - rewrite Hsum. simpl. exact Hlen. }
    split; [exact Hrow|].
    intros zs Hin. rewrite stan_py_log_prob_spec.
    destruct Hrow as [Hrow|Hrow];
      destruct (comprehension_In_Error _ zs z _ Hin Hrow) as [e He];
      rewrite He; simpl; eauto.
Qed.
End RowLength.


(** ** The results on concrete wrappers *)

(** Construction with both [file] and [model_code] succeeds, so it is not
    the case that construction succeeds only when exactly one of the two
    is supplied. *)
Lemma init_with_both_succeeds :
  ~ (forall file model_code : option string,
       (exists self, @StanModel.__init__ Binary.floats file model_code = Ok self) <->
       ((file <> None /\ model_code = None) \/
        (file = None /\ model_code <> None))).
Proof.
  intros H.
  destruct (H (Some "model.stan"%string) (Some Binary.code))
    as [Hex _].
  destruct Hex as [[_ Hc]|[Hf _]]; [eexists; reflexivity | discriminate | discriminate].
Qed.

Lemma init_needs_a_source_witness :
  (exists self,
     @StanModel.__init__ Binary.floats (Some "model.stan"%string)
       (Some Binary.code) = Ok self) /\
  @StanModel.__init__ Binary.floats None None = Error NotImplementedError.
Proof.
  destruct (@init_needs_a_source Binary.floats (Some "model.stan"%string)
              (Some Binary.code)) as [[_ Hex] _].
  destruct (@init_needs_a_source Binary.floats None None) as (_ & Hnone & _).
  split.
  - apply Hex. left. discriminate.
  - apply Hnone; reflexivity.
Defined.

(** A wrapper initialized on one scalar parameter accepts a row of two
    entries and evaluates it on the first: the row's length differs from
    the declared total and the call does not fail. *)
Lemma long_row_is_accepted :
  exists self tr nd,
    StanModel.log_prob nat (Binary.stan_const Binary.fit_mu) Binary.stan_fresh
      1 [[Binary.one; Binary.two]] [] = (self, tr, Ok nd) /\
    StanModel.num_vars self = Some 1 /\
    length [Binary.one; Binary.two] <> 1 /\
    StanModel._py_log_prob self [[Binary.one; Binary.two]] = Ok [Binary.one] /\
    ~ (exists e, StanModel._py_log_prob self [[Binary.one; Binary.two]] = Error e).
Proof.
  eexists _, _, _. split; [reflexivity|].
  split; [reflexivity|]. split; [discriminate|]. split; [reflexivity|].
  intros [e He]. discriminate He.
Qed.

(** With a parameter of dimensions [[1; 3]] the declared total is four,
    and a row of three entries is accepted as well. *)
Example short_row_is_accepted_for_matrix :
  StanModel.num_vars (Binary.stan_ready Binary.fit_matrix) = Some 4 /\
  StanModel._py_log_prob (Binary.stan_ready Binary.fit_matrix)
    [[Binary.one; Binary.two; Binary.half]] = Ok [Binary.one].
Proof. split; reflexivity. Qed.

Lemma row_length_is_not_checked_witness :
  StanModel.model (Binary.stan_ready Binary.fit_mu_theta)
    = Some Binary.fit_mu_theta /\
  StanModel.row_log_prob (Binary.stan_ready Binary.fit_mu_theta)
      ([Binary.half; Binary.one; Binary.two] ++ [Binary.two; Binary.two])
    = StanModel.row_log_prob (Binary.stan_ready Binary.fit_mu_theta)
        [Binary.half; Binary.one; Binary.two] /\
  exists e,
    StanModel._py_log_prob (Binary.stan_ready Binary.fit_mu_theta)
      [[Binary.half; Binary.one; Binary.two]; [Binary.half; Binary.one]]
      = Error e.
Proof.
  split; [reflexivity|].
  destruct (row_length_is_not_checked (Binary.stan_ready Binary.fit_mu_theta)
              Binary.fit_mu_theta eq_refl eq_refl) as [Hlong Hshort].
  split.
  - apply Hlong. vm_compute. lia.
  - destruct (Hshort ltac:(repeat constructor) [Binary.half; Binary.one]
                ltac:(vm_compute; lia)) as [_ Hbatch].
    apply Hbatch. simpl. auto.
Defined.

(** When the engine raises on the first call, the exception leaves the
    wrapper uninitialized, and the next call prints and instantiates the
    engine again, on its own data: over these two calls the engine is
    instantiated twice, and the data bound is that of the second call. *)
Example failed_instantiation_is_retried :
  exists self1 tr1 self2 tr2 nd,
    StanModel.log_prob nat (Binary.stan_picky Binary.fit_mu) Binary.stan_fresh
      0 [] [] = (self1, tr1, Error (BackendError 1)) /\
    StanModel.flag_init self1 = false /\
    StanModel.log_prob nat (Binary.stan_picky Binary.fit_mu) self1
      1 [] tr1 = (self2, tr2, Ok nd) /\
    StanModel.flag_init self2 = true /\
    tr2 = [StanModel.Print StanModel.startup_message;
           StanModel.Stan (StanModel.ModelCode Binary.code) 0;
           StanModel.Print StanModel.startup_message;
           StanModel.Stan (StanModel.ModelCode Binary.code) 1].
Proof.
  eexists _, _, _, _, _. repeat split; reflexivity.
Qed.



Lemma py_log_prob_rowwise_witness :
  PyMC3Model._py_log_prob Binary.pymc3_identity [[Binary.one]; [Binary.two]]
    = Ok [Binary.one; Binary.two] /\
  StanModel._py_log_prob (Binary.stan_ready Binary.fit_mu_theta)
      [[Binary.half; Binary.one; Binary.two]; [Binary.two; Binary.one; Binary.one]]
    = Ok [Binary.half; Binary.two].
Proof.
  destruct (@py_log_prob_rowwise Binary.floats [[Binary.one]; [Binary.two]])
    as [Hpymc3 _].
  destruct (@py_log_prob_rowwise Binary.floats
              [[Binary.half; Binary.one; Binary.two];
               [Binary.two; Binary.one; Binary.one]]) as [_ Hstan].
  split.
  - apply (proj1 (Hpymc3 Binary.pymc3_identity)
             [float_of Binary.one; float_of Binary.two]).
    repeat constructor.
  - apply (proj1 (Hstan (Binary.stan_ready Binary.fit_mu_theta))
             [float_of Binary.half; float_of Binary.two]).
    repeat constructor.
Defined.


(** * Further properties of the wrappers and the container *)

(** ** Batches *)

(** A comprehension raises exactly the exception of its first failing
    element. *)
Lemma comprehension_Error {A B : Type} (f : A -> M B) (l : list A) (e : exn) :
  comprehension f l = Error e <->
  exists i a, l !! i = Some a /\ f a = Error e /\
              forall j b, j < i -> l !! j = Some b -> exists v, f b = Ok v.
Proof.
  induction l as [|x l IH]; simpl.
  - split; [discriminate | intros (i & a & H & _); discriminate].
  - destruct (f x) as [v|ex] eqn:Ex; simpl.
    + assert (Htail : (exists i a, (x :: l) !! i = Some a /\ f a = Error e /\
                         forall j b, j < i -> (x :: l) !! j = Some b ->
                                     exists v, f b = Ok v)
                      <-> comprehension f l = Error e).
      { rewrite IH. split.
        - intros (i & a & Hi & Ha & Hbefore).
          destruct i as [|i]; simpl in Hi; [congruence|].
          exists i, a. repeat split; auto.
          intros j b Hj Hb. apply (Hbefore (S j) b); [lia | exact Hb].
        - intros (i & a & Hi & Ha & Hbefore).
          exists (S i), a. repeat split; auto.
          intros [|j] b Hj Hb; simpl in Hb; [injection Hb as <-; eauto|].
          apply (Hbefore j b); [lia | exact Hb]. }
      rewrite Htail.
      destruct (comprehension f l) as [bs|e']; simpl;
        split; intros H; try discriminate; congruence.
    + split.
      * intros [= <-]. exists 0, x. repeat split; auto. intros j b Hj. lia.
      * intros (i & a & Hi & Ha & Hbefore).
        destruct i as [|i]; simpl in Hi; [congruence|].
        destruct (Hbefore 0 x ltac:(lia) eq_refl) as [v Hv]. congruence.
Qed.

Lemma comprehension_app {A B : Type} (f : A -> M B) (l1 l2 : list A) :
  comprehension f (l1 ++ l2)
    = do a <- comprehension f l1; do b <- comprehension f l2; Ok (a ++ b).
Proof.
  induction l1 as [|x l1 IH]; simpl.
  - destruct (comprehension f l2); reflexivity.
  - destruct (f x) as [v|e]; simpl; [|reflexivity].
    rewrite IH. destruct (comprehension f l1) as [a|e]; simpl; [|reflexivity].
    destruct (comprehension f l2); reflexivity.
Qed.

Section Batches.
Context {FL : Floats}.

Lemma rowwise_Error (f : list f32 -> M f64) (zs : list (list f32)) (e : exn) :
  (do vs <- comprehension f zs; Ok (map round32 vs)) = Error e <->
  comprehension f zs = Error e.
Proof.
  destruct (comprehension f zs); simpl; split; intros H;
    try discriminate; congruence.
Qed.

Lemma rowwise_app (f : list f32 -> M f64) (zs1 zs2 : list (list f32)) :
  (do vs <- comprehension f (zs1 ++ zs2); Ok (map round32 vs))
    = do a <- (do vs <- comprehension f zs1; Ok (map round32 vs));
      do b <- (do vs <- comprehension f zs2; Ok (map round32 vs));
      Ok (a ++ b).
Proof.
  rewrite comprehension_app.
  destruct (comprehension f zs1) as [a|e]; simpl; [|reflexivity].
  destruct (comprehension f zs2) as [b|e]; simpl; [|reflexivity].
  rewrite map_app. reflexivity.
Qed.

(** X1. The per-row routine of either wrapper returns no partial result:
    it raises exactly when some row raises, and then raises the exception
    of the first such row of the batch. *)
Theorem py_log_prob_first_failure (zs : list (list f32)) (e : exn) :
  (forall self : PyMC3Model.t,
     PyMC3Model._py_log_prob self zs = Error e <->
     exists s z, zs !! s = Some z /\ PyMC3Model.logp self z = Error e /\
                 forall j y, j < s -> zs !! j = Some y ->
                             exists v, PyMC3Model.logp self y = Ok v) /\
  (forall self : StanModel.t,
     StanModel._py_log_prob self zs = Error e <->
     exists b z, zs !! b = Some z /\ StanModel.row_log_prob self z = Error e /\
                 forall j y, j < b -> zs !! j = Some y ->
                             exists v, StanModel.row_log_prob self y = Ok v).
Proof.
  split; intros self.
  - rewrite pymc3_py_log_prob_spec, rowwise_Error. apply comprehension_Error.
  - rewrite stan_py_log_prob_spec, rowwise_Error. apply comprehension_Error.
Qed.

(** X2. Rows are evaluated independently of the batch they are in: the
    routine on two batches put end to end gives the two results put end to
    end, and raises what the first batch raises, else what the second
    raises. *)
Theorem py_log_prob_app (zs1 zs2 : list (list f32)) :
  (forall self : PyMC3Model.t,
     PyMC3Model._py_log_prob self (zs1 ++ zs2)
       = do a <- PyMC3Model._py_log_prob self zs1;
         do b <- PyMC3Model._py_log_prob self zs2;
         Ok (a ++ b)) /\
  (forall self : StanModel.t,
     StanModel._py_log_prob self (zs1 ++ zs2)
       = do a <- StanModel._py_log_prob self zs1;
         do b <- StanModel._py_log_prob self zs2;
         Ok (a ++ b)).
Proof.
  split; intros self.
  - rewrite !pymc3_py_log_prob_spec. apply rowwise_app.
  - rewrite !stan_py_log_prob_spec. apply rowwise_app.
Qed.

(** X3. Between construction and the first [log_prob] call the Stan
    wrapper has no [model] attribute: its per-row routine raises
    [AttributeError] on every batch that has a row, and returns the empty
    vector on the empty batch. *)
Theorem py_log_prob_before_initialization (file model_code : option string)
    (self0 : StanModel.t) :
  StanModel.__init__ file model_code = Ok self0 ->
  StanModel._py_log_prob self0 [] = Ok [] /\
  forall z zs, StanModel._py_log_prob self0 (z :: zs) = Error AttributeError.
Proof.
  intros Hinit.
  assert (Hmodel : StanModel.model self0 = None).
  { destruct file, model_code; simpl in Hinit;
      try discriminate; injection Hinit as <-; reflexivity. }
  split; [reflexivity|].
  intros z zs. rewrite stan_py_log_prob_spec. simpl.
  unfold StanModel.row_log_prob. rewrite Hmodel. reflexivity.
Qed.
End Batches.

(** ** The dictionary of a row *)

Section RowDictionary.
Context {FL : Floats}.

Lemma setitem_fresh (d : StanModel.z_dict) (k : string) (v : StanModel.par_value) :
  ~ In k (map fst d) -> StanModel.setitem d k v = d ++ [(k, v)].
Proof.
  induction d as [|[k' v'] d IH]; intros Hk; simpl; [reflexivity|].
  destruct (String.eqb k' k) eqn:E.
  - apply String.eqb_eq in E. simpl in Hk. tauto.
  - rewrite IH; [reflexivity|]. simpl in Hk. tauto.
Qed.

(** With scalar and vector parameters under distinct names and enough
    entries left in the row, the loop returns a dictionary that lists the
    remaining names in order after the keys it had, and whose new values
    are the entries it read, in order. *)
Lemma z_dict_loop_rebuilds (z : list f32) (pars : list (list nat * string)) :
  forall (d : StanModel.z_dict) (idx : nat),
    Forall (fun p => length (fst p) <= 1) pars ->
    List.NoDup (map fst d ++ map snd pars) ->
    idx + sum_list_with (fun p => StanModel.par_size (fst p)) pars <= length z ->
    exists d',
      StanModel.z_dict_loop z pars d idx = Ok d' /\
      map fst d' = map fst d ++ map snd pars /\
      concat (map (fun kv => StanModel.entries (snd kv)) d')
        = concat (map (fun kv => StanModel.entries (snd kv)) d)
          ++ map float_of
               (take (sum_list_with (fun p => StanModel.par_size (fst p)) pars)
                     (drop idx z)).
Proof.
  induction pars as [|[dim par] pars IH]; intros d idx Hrank Hnodup Hlen.
  - exists d. simpl. rewrite !app_nil_r. auto.
  - apply Forall_cons in Hrank as [Hdim Hrank].
    cbn [StanModel.z_dict_loop sum_list_with fst map snd] in *.
    assert (Hfresh : ~ In par (map fst d)).
    { intros Hin. apply List.NoDup_remove_2 in Hnodup.
      apply Hnodup. apply in_or_app. auto. }
    assert (Hnodup' : forall v,
              List.NoDup (map fst (StanModel.setitem d par v) ++ map snd pars)).
    { intros v. rewrite setitem_fresh by exact Hfresh.
      rewrite map_app, <- app_assoc. exact Hnodup. }
    assert (Hkeys : forall v,
              map fst (StanModel.setitem d par v) ++ map snd pars
              = map fst d ++ par :: map snd pars).
    { intros v. rewrite setitem_fresh by exact Hfresh.
      rewrite map_app, <- app_assoc. reflexivity. }
    assert (Hvals : forall v,
              concat (map (fun kv => StanModel.entries (snd kv))
                          (StanModel.setitem d par v))
              = concat (map (fun kv => StanModel.entries (snd kv)) d)
                ++ StanModel.entries v).
    { intros v. rewrite setitem_fresh by exact Hfresh.
      rewrite map_app, concat_app. simpl. rewrite app_nil_r. reflexivity. }
    assert (Hsz : StanModel.par_size dim
                  = if StanModel.sum_dim dim =? 0 then 1 else StanModel.sum_dim dim)
      by reflexivity.
    destruct (StanModel.sum_dim dim =? 0) eqn:E; rewrite Hsz in *.
    + destruct (lookup_lt_is_Some_2 z idx ltac:(lia)) as [x Hx].
      unfold getitem. rewrite Hx. cbn [bind].
      destruct (IH (StanModel.setitem d par (StanModel.PFloat (float_of x)))
                  (idx + 1) Hrank (Hnodup' _) ltac:(lia))
        as (d' & Hloop & Hk & Hv).
      exists d'. split; [exact Hloop|]. split; [rewrite Hk; apply Hkeys|].
      rewrite Hv, Hvals. simpl StanModel.entries.
      rewrite (drop_S z x idx Hx), Nat.add_1_r, <- app_assoc. reflexivity.
    + apply Nat.eqb_neq in E.
      destruct dim as [|k [|k' dim]];
        [contradiction E; reflexivity | | simpl in Hdim; lia].
      change (StanModel.sum_dim [k]) with k in *.
      assert (Hslice : StanModel.slice z idx (idx + k) = take k (drop idx z)).
      { unfold StanModel.slice. f_equal. lia. }
      unfold StanModel.reshape. rewrite Hslice.
      change (fold_left Nat.mul [k] 1) with (1 * k).
      rewrite length_take, length_drop.
      replace (k `min` (length z - idx) =? 1 * k) with true
        by (symmetry; apply Nat.eqb_eq; lia).
      cbn [bind].
      destruct (IH (StanModel.setitem d par (StanModel.PArray [k] (take k (drop idx z))))
                  (idx + k) Hrank (Hnodup' _) ltac:(lia))
        as (d' & Hloop & Hk & Hv).
      exists d'. split; [exact Hloop|]. split; [rewrite Hk; apply Hkeys|].
      rewrite Hv, Hvals. simpl StanModel.entries.
      rewrite <- app_assoc, <- map_app. do 2 f_equal.
      rewrite <- (drop_drop z k idx). apply take_take_drop.
Qed.

(** X4. When the declared parameters are scalars and vectors under
    distinct names and the row has at least the declared number of
    entries, rebuilding the row's dictionary succeeds and loses nothing:
    its keys are the parameter names in declared order, and its values,
    read in order, are the leading entries of the row, as many as
    declared. The row's log density is then the engine's, on that
    dictionary, without the transform adjustment. *)
Theorem row_dictionary_holds_the_row (self : StanModel.t) (m : StanModel.fit)
    (z : list f32) :
  StanModel.model self = Some m ->
  length (StanModel.model_pars m) = length (StanModel.par_dims m) ->
  List.NoDup (StanModel.model_pars m) ->
  Forall (fun dim => length dim <= 1) (StanModel.par_dims m) ->
  StanModel.count_vars (StanModel.par_dims m) <= length z ->
  exists d,
    StanModel.z_dict_loop z
      (zip (StanModel.par_dims m) (StanModel.model_pars m)) [] 0 = Ok d /\
    map fst d = StanModel.model_pars m /\
    concat (map (fun kv => StanModel.entries (snd kv)) d)
      = map float_of (take (StanModel.count_vars (StanModel.par_dims m)) z) /\
    StanModel.row_log_prob self z
      = do z_unconst <- StanModel.unconstrain_pars m d;
        StanModel.fit_log_prob m z_unconst false.
Proof.
  intros Hm Hpars Hnodup Hrank Hlen.
  set (pars := zip (StanModel.par_dims m) (StanModel.model_pars m)).
  assert (Hfst : pars.*1 = StanModel.par_dims m) by (apply fst_zip; lia).
  assert (Hsnd : pars.*2 = StanModel.model_pars m) by (apply snd_zip; lia).
  assert (Hsum : sum_list_with (fun p => StanModel.par_size (fst p)) pars
                 = StanModel.count_vars (StanModel.par_dims m)).
  { rewrite count_vars_sum_list, <- Hfst. clear.
    induction pars as [|p l IH]; simpl; [reflexivity | now rewrite IH]. }
  destruct (z_dict_loop_rebuilds z pars [] 0) as (d & Hloop & Hk & Hv).
  - rewrite <- Hfst in Hrank. clear -Hrank.
    induction pars as [|p l IH]; [constructor|].
    apply Forall_cons in Hrank as [Hp Hl]. constructor; auto.
  - simpl. change (map snd pars) with (pars.*2). rewrite Hsnd. exact Hnodup.
  - rewrite Hsum. simpl. exact Hlen.
  - exists d. split; [exact Hloop|].
    split; [rewrite Hk; simpl; exact Hsnd|].
    split; [rewrite Hv, Hsum; reflexivity|].
    unfold StanModel.row_log_prob. rewrite Hm. fold pars. rewrite Hloop.
    reflexivity.
Qed.
End RowDictionary.

(** ** The Stan wrapper across caught exceptions *)

Lemma count_vars_at_least_length (par_dims : list (list nat)) :
  length par_dims <= StanModel.count_vars par_dims.
Proof.
  rewrite count_vars_sum_list.
  induction par_dims as [|dim l IH]; simpl; [lia|].
  assert (0 < StanModel.par_size dim).
  { unfold StanModel.par_size.
    destruct (StanModel.sum_dim dim =? 0) eqn:E; [lia|].
    apply Nat.eqb_neq in E. lia. }
  lia.
Qed.

Section StanRetries.
Context {FL : Floats}.
Variable Data : Type.
Variable stan : StanModel.source -> Data -> M StanModel.fit.

Abbreviation stan_log_prob := (StanModel.log_prob Data stan).
Abbreviation calls_caught := (StanModel.calls_caught Data stan).

(** X5. Every declared parameter counts at least one variable: after the
    initializing call [num_vars] is a number that is at least the number
    of parameters the engine declares. *)
Theorem num_vars_at_least_parameters (file model_code : option string)
    (self0 self' : StanModel.t) (xs : Data) (zs : list (list f32))
    (tr tr' : list (StanModel.event Data)) (nd : StanModel.node) :
  StanModel.__init__ file model_code = Ok self0 ->
  stan_log_prob self0 xs zs tr = (self', tr', Ok nd) ->
  exists m n,
    StanModel.model self' = Some m /\
    StanModel.num_vars self' = Some n /\
    length (StanModel.par_dims m) <= n.
Proof.
  intros Hinit Hcall.
  destruct (init_source_of _ _ _ Hinit) as (Hflag & _ & src & Hsrc).
  rewrite (log_prob_first Data stan self0 src xs zs tr Hflag Hsrc) in Hcall.
  destruct (stan src xs) as [m|e]; [|discriminate].
  injection Hcall as <- _ _.
  exists m, (StanModel.count_vars (StanModel.par_dims m)).
  repeat split. apply count_vars_at_least_length.
Qed.

(** Calls on an uninitialized wrapper whose instantiations all raise leave
    the wrapper as it is and add one attempt each to the trace. *)
Lemma calls_caught_all_fail (self : StanModel.t) (src : StanModel.source)
    (calls : list (Data * list (list f32))) :
  StanModel.flag_init self = false ->
  StanModel.source_of self = Some src ->
  Forall (fun c => exists e, stan src (fst c) = Error e) calls ->
  forall tr,
    calls_caught self calls tr
      = (self, tr ++ flat_map (fun c => StanModel.attempt src (fst c)) calls).
Proof.
  intros Hflag Hsrc Hfail.
  induction Hfail as [|[xs zs] calls [e He] _ IH]; intros tr; simpl.
  - rewrite app_nil_r. reflexivity.
  - rewrite (log_prob_first Data stan self src xs zs tr Hflag Hsrc).
    simpl in He. rewrite He. rewrite IH.
    rewrite <- app_assoc. reflexivity.
Qed.

Lemma calls_caught_initialized (calls : list (Data * list (list f32))) :
  forall (self : StanModel.t) (tr : list (StanModel.event Data)),
    StanModel.flag_init self = true ->
    calls_caught self calls tr = (self, tr).
Proof.
  induction calls as [|[xs zs] calls IH]; intros self tr H; simpl.
  - reflexivity.
  - rewrite log_prob_initialized by exact H. apply IH. exact H.
Qed.

(** X6. Also when the caller catches the exceptions and goes on calling,
    the engine is instantiated successfully at most once. If the
    instantiations of the calls [fails] all raise and the next call's
    returns the model [m], the wrapper ends initialized with [m], bound
    to the data of that call, whatever calls follow; the trace holds one
    attempt for each of these calls and nothing for the calls after. If
    the instantiations of all calls raise, the wrapper stays as
    constructed. *)
Theorem initializes_on_first_success (file model_code : option string)
    (self0 : StanModel.t) (tr : list (StanModel.event Data)) :
  StanModel.__init__ file model_code = Ok self0 ->
  exists src,
    StanModel.source_of self0 = Some src /\
    (forall fails xs zs rest m,
       Forall (fun c => exists e, stan src (fst c) = Error e) fails ->
       stan src xs = Ok m ->
       calls_caught self0 (fails ++ (xs, zs) :: rest) tr
         = (StanModel.initialized self0 m,
            tr ++ flat_map (fun c => StanModel.attempt src (fst c))
                           (fails ++ [(xs, zs)]))) /\
    (forall calls,
       Forall (fun c => exists e, stan src (fst c) = Error e) calls ->
       calls_caught self0 calls tr
         = (self0,
            tr ++ flat_map (fun c => StanModel.attempt src (fst c)) calls)).
Proof.
  intros Hinit.
  destruct (init_source_of _ _ _ Hinit) as (Hflag & _ & src & Hsrc).
  exists src. split; [exact Hsrc|]. split.
  - intros fails xs zs rest m Hfails Hok.
    assert (Hsplit : forall cs1 cs2 self tr1,
              calls_caught self (cs1 ++ cs2) tr1
              = calls_caught (fst (calls_caught self cs1 tr1)) cs2
                             (snd (calls_caught self cs1 tr1))).
    { induction cs1 as [|[x z] cs1 IH]; intros cs2 self tr1; simpl; [reflexivity|].
      destruct (stan_log_prob self x z tr1) as [[self1 tr2] r]. apply IH. }
    rewrite Hsplit.
    rewrite (calls_caught_all_fail self0 src fails Hflag Hsrc Hfails). simpl.
    rewrite (log_prob_first Data stan self0 src xs zs _ Hflag Hsrc), Hok.
    rewrite calls_caught_initialized by reflexivity.
    rewrite flat_map_app, <- !app_assoc. simpl. reflexivity.
  - intros calls Hfails.
    apply (calls_caught_all_fail self0 src calls Hflag Hsrc Hfails).
Qed.

(** X7. Whatever calls are made on a constructed wrapper and whichever of
    them raise, the wrapper keeps the source it was constructed with and
    is in one of two states: uninitialized, with neither [model] nor
    [num_vars]; or initialized, with a model and the [num_vars] counted
    from that model's declared dimensions. *)
Theorem wrapper_state_is_consistent (file model_code : option string)
    (self0 : StanModel.t) (calls : list (Data * list (list f32)))
    (tr : list (StanModel.event Data)) :
  StanModel.__init__ file model_code = Ok self0 ->
  let self' := fst (calls_caught self0 calls tr) in
  StanModel.file self' = StanModel.file self0 /\
  StanModel.model_code self' = StanModel.model_code self0 /\
  ((StanModel.flag_init self' = false /\
    StanModel.model self' = None /\
    StanModel.num_vars self' = None) \/
   (exists m,
      StanModel.flag_init self' = true /\
      StanModel.model self' = Some m /\
      StanModel.num_vars self'
        = Some (StanModel.count_vars (StanModel.par_dims m)))).
Proof.
  intros Hinit.
  destruct (init_source_of _ _ _ Hinit) as (Hflag & Hnum & src & Hsrc).
  assert (Hmodel : StanModel.model self0 = None).
  { destruct file, model_code; simpl in Hinit;
      try discriminate; injection Hinit as <-; reflexivity. }
  revert tr. induction calls as [|[xs zs] calls IH]; intros tr; simpl.
  - split; [reflexivity|]. split; [reflexivity|]. left. auto.
  - rewrite (log_prob_first Data stan self0 src xs zs tr Hflag Hsrc).
    destruct (stan src xs) as [m|e].
    + rewrite calls_caught_initialized by reflexivity. simpl.
      split; [reflexivity|]. split; [reflexivity|]. right. exists m. auto.
    + apply IH.
Qed.
End StanRetries.

Section StanInitialization.
Context {FL : Floats}.
Variable Data : Type.
Variable stan : StanModel.source -> Data -> M StanModel.fit.

(** C6, as amended. A constructed wrapper is uninitialized. When the
    engine instantiation of the first [log_prob] call returns, that call
    initializes the wrapper with the model built from its data, and
    across the whole sequence of calls, whatever follows, the engine is
    instantiated exactly once: the trace gains the one start-up message
    and the one instantiation of the first call, on the first call's
    data. A call whose instantiation raises leaves the wrapper
    uninitialized and as it was, with one attempt in the trace, so the
    next call instantiates again. Every call on an initialized wrapper
    leaves wrapper and trace as they are, so the data of later calls is
    never bound. *)
Theorem initializes_once_when_engine_returns (file model_code : option string)
    (self0 : StanModel.t) :
  StanModel.__init__ file model_code = Ok self0 ->
  StanModel.flag_init self0 = false /\
  exists src,
    StanModel.source_of self0 = Some src /\
    (forall xs1 zs1 tr m,
       stan src xs1 = Ok m ->
       StanModel.log_prob Data stan self0 xs1 zs1 tr
         = (StanModel.initialized self0 m,
            tr ++ [StanModel.Print StanModel.startup_message;
                   StanModel.Stan src xs1],
            Ok (StanModel.py_func zs1)) /\
       forall calls,
         StanModel.calls_caught Data stan self0 ((xs1, zs1) :: calls) tr
           = (StanModel.initialized self0 m,
              tr ++ [StanModel.Print StanModel.startup_message;
                     StanModel.Stan src xs1])) /\
    (forall xs zs tr e,
       stan src xs = Error e ->
       StanModel.log_prob Data stan self0 xs zs tr
         = (self0,
            tr ++ [StanModel.Print StanModel.startup_message;
                   StanModel.Stan src xs],
            Error e)) /\
    (forall self xs zs tr,
       StanModel.flag_init self = true ->
       StanModel.log_prob Data stan self xs zs tr
         = (self, tr, Ok (StanModel.py_func zs))).
Proof.
  intros Hinit.
  destruct (init_source_of _ _ _ Hinit) as (Hflag & _ & src & Hsrc).
  split; [exact Hflag|].
  exists src. split; [exact Hsrc|]. split; [|split].
  - intros xs1 zs1 tr m Hok.
    assert (Hfirst : StanModel.log_prob Data stan self0 xs1 zs1 tr
              = (StanModel.initialized self0 m,
                 tr ++ [StanModel.Print StanModel.startup_message;
                        StanModel.Stan src xs1],
                 Ok (StanModel.py_func zs1))).
    { rewrite (log_prob_first Data stan self0 src xs1 zs1 tr Hflag Hsrc), Hok.
      reflexivity. }
    split; [exact Hfirst|].
    intros calls. cbn [StanModel.calls_caught]. rewrite Hfirst.
    apply calls_caught_initialized. reflexivity.
  - intros xs zs tr e Herr.
    rewrite (log_prob_first Data stan self0 src xs zs tr Hflag Hsrc), Herr.
    reflexivity.
  - intros self xs zs tr H. apply log_prob_initialized. exact H.
Qed.
End StanInitialization.

(** ** The NumPy/SciPy wrapper *)

Section PythonModelFacts.
Context {FL : Floats}.
Variable Data : Type.
Variable method :
  PythonModel.t Data -> Data -> list (list f32) -> M (list f32).

Lemma python_calls_snoc (cs : list (Data * list (list f32))) (xs : Data)
    (zs : list (list f32)) :
  forall self : PythonModel.t Data,
    fst (PythonModel.calls Data self (cs ++ [(xs, zs)]))
      = {| PythonModel.num_vars := PythonModel.num_vars Data self;
           PythonModel.xs := Some xs |} /\
    snd (PythonModel.calls Data self (cs ++ [(xs, zs)]))
      = map (fun c => PythonModel.py_func (snd c)) (cs ++ [(xs, zs)]).
Proof.
  induction cs as [|[x z] cs IH]; intros self; simpl.
  - auto.
  - destruct (IH {| PythonModel.num_vars := PythonModel.num_vars Data self;
                    PythonModel.xs := Some x |}) as [Hst Hnds].
    destruct (PythonModel.calls Data _ (cs ++ [(xs, zs)])) as [self'' nds].
    simpl in *. subst. auto.
Qed.

(** X8. The wrapper keeps only the data of its latest [log_prob] call,
    and a node reads the data when it is run: after a sequence of calls,
    running any of the returned nodes, also one returned by an earlier
    call with other data, evaluates the model's method on the data of the
    last call. With the base class's method every run raises
    [NotImplementedError], and a node run on a wrapper that was never
    called raises [AttributeError]. *)
Theorem nodes_read_latest_data (self : PythonModel.t Data)
    (cs : list (Data * list (list f32))) (xs : Data) (zs : list (list f32)) :
  let self' := fst (PythonModel.calls Data self (cs ++ [(xs, zs)])) in
  let nds := snd (PythonModel.calls Data self (cs ++ [(xs, zs)])) in
  PythonModel.xs Data self' = Some xs /\
  PythonModel.num_vars Data self' = PythonModel.num_vars Data self /\
  length nds = S (length cs) /\
  (forall i c, (cs ++ [(xs, zs)]) !! i = Some c ->
     exists nd, nds !! i = Some nd /\
       PythonModel.run_node Data method self' nd = method self' xs (snd c) /\
       PythonModel.run_node Data (PythonModel._py_log_prob Data) self' nd
         = Error NotImplementedError) /\
  (forall nd,
     PythonModel.run_node Data method (PythonModel.__init__ Data) nd
       = Error AttributeError).
Proof.
  intros self' nds.
  destruct (python_calls_snoc cs xs zs self) as [Hst Hnds].
  fold self' in Hst. fold nds in Hnds.
  rewrite Hst, Hnds. simpl PythonModel.xs. simpl PythonModel.num_vars.
  split; [reflexivity|]. split; [reflexivity|].
  split; [rewrite length_map, length_app; simpl; lia|].
  split.
  - intros i c Hc. exists (PythonModel.py_func (snd c)).
    split; [rewrite list_lookup_fmap, Hc; reflexivity|].
    split; reflexivity.
  - intros [zs']. reflexivity.
Qed.
End PythonModelFacts.

(** ** More on the container *)

Lemma string_app_assoc (a b c : string) :
  ((a ++ b) ++ c = a ++ (b ++ c))%string.
Proof.
  induction a as [|ch a IH]; [reflexivity|].
  change (String ch ((a ++ b) ++ c) = String ch (a ++ (b ++ c)))%string.
  f_equal. exact IH.
Qed.

Lemma string_concat_snoc (sep x : string) (l : list string) :
  l <> [] ->
  String.concat sep (l ++ [x]) = (String.concat sep l ++ sep ++ x)%string.
Proof.
  induction l as [|y l IH]; intros Hne; [contradiction|].
  destruct l as [|y' l].
  - reflexivity.
  - change (String.concat sep ((y :: y' :: l) ++ [x]))
      with (y ++ sep ++ String.concat sep ((y' :: l) ++ [x]))%string.
    rewrite IH by discriminate.
    change (String.concat sep (y :: y' :: l))
      with (y ++ sep ++ String.concat sep (y' :: l))%string.
    rewrite !string_app_assoc. reflexivity.
Qed.

Section ContainerEdges.
Context {FL : Floats}.
Import Variational.

Lemma str_loop_spec (layer_str : Layer.t -> string) (ls : list Layer.t) :
  forall (l : nat) (acc x : string),
    0 < l ->
    __str___loop layer_str l ls (acc ++ x)%string
      = (acc ++ String.concat newline (x :: map layer_str ls))%string.
Proof.
  induction ls as [|layer ls IH]; intros l acc x Hl.
  - reflexivity.
  - cbn [__str___loop map].
    destruct (l =? 0) eqn:E; [apply Nat.eqb_eq in E; lia|].
    rewrite (IH (S l) ((acc ++ x) ++ newline)%string (layer_str layer))
      by lia.
    change (String.concat newline (x :: layer_str layer :: map layer_str ls))
      with (x ++ newline
              ++ String.concat newline (layer_str layer :: map layer_str ls))%string.
    rewrite !string_app_assoc. reflexivity.
Qed.

Lemma str_of_layers (layer_str : Layer.t -> string) (ls : list Layer.t) :
  __str___loop layer_str 0 ls EmptyString
    = String.concat newline (map layer_str ls).
Proof.
  destruct ls as [|layer ls]; [reflexivity|].
  cbn [__str___loop Nat.eqb map].
  apply (str_loop_spec layer_str ls 1 EmptyString (layer_str layer)). lia.
Qed.

(** X9. [__str__] is the layers' strings joined by newlines: the empty
    string on no layers, no leading or trailing newline; after [add] it is
    the string before, a newline and the new layer's string, or just the
    new layer's string if the container was empty. *)
Theorem str_joins_layers (layer_str : Layer.t -> string) (h : heap) (c : t)
    (ls : list Layer.t) (layer : Layer.t) :
  h !! layers c = Some ls ->
  __str__ layer_str h c = String.concat newline (map layer_str ls) /\
  __str__ layer_str (fst (add h c layer)) (snd (add h c layer))
    = match ls with
      | [] => layer_str layer
      | _ => (__str__ layer_str h c ++ newline ++ layer_str layer)%string
      end.
Proof.
  intros Hls.
  assert (Hstr : __str__ layer_str h c = String.concat newline (map layer_str ls)).
  { unfold __str__, layers_of. rewrite Hls. apply str_of_layers. }
  split; [exact Hstr|].
  unfold __str__ at 1. unfold layers_of.
  rewrite (add_layers h c ls layer Hls). simpl default.
  rewrite str_of_layers, map_app. simpl map.
  destruct ls as [|l0 ls]; [reflexivity|].
  rewrite Hstr. apply string_concat_snoc. discriminate.
Qed.

(** X10. On a container without layers [sample] returns the empty
    sequence and [entropy] returns zero, but [log_prob] on the matching
    input, the empty list, raises [IndexError]; on an input with a first
    entry it returns the all-zero vector of that entry's leading
    dimension. *)
Theorem empty_container (h : heap) (c : t) :
  layers_of h c = [] ->
  (forall size, sample h c size = Ok (Seq [])) /\
  entropy h c = Ok zero32 /\
  log_prob h c (Seq []) = Error IndexError /\
  (forall x xl n dims,
     get_dims x = n :: dims ->
     log_prob h c (Seq (x :: xl)) = Ok (tf_zeros n)).
Proof.
  intros Hl.
  split; [intros size; unfold sample; rewrite Hl; reflexivity|].
  split; [unfold entropy; rewrite Hl; reflexivity|].
  split; [unfold log_prob; rewrite Hl; reflexivity|].
  intros x xl n dims Hd. unfold log_prob. rewrite Hl. simpl.
  unfold getitem. rewrite Hd. reflexivity.
Qed.

(** The loop reads only the entries at the layers' indices. *)
Lemma log_prob_loop_extra (xl extra : list pyval) (ls : list Layer.t) :
  forall (k : nat) (acc : list f32),
    k + length ls <= length xl ->
    log_prob_loop (Seq (xl ++ extra)) k ls acc = log_prob_loop (Seq xl) k ls acc.
Proof.
  induction ls as [|layer ls IH]; intros k acc Hlen; [reflexivity|].
  simpl in Hlen. cbn [log_prob_loop index]. unfold getitem.
  rewrite lookup_app_l by lia.
  destruct (xl !! k) as [x|]; cbn [bind]; [|reflexivity].
  destruct (Layer.log_prob layer x) as [lp|e]; cbn [bind]; [|reflexivity].
  destruct (tf_add acc lp) as [acc'|e]; cbn [bind]; [|reflexivity].
  apply IH. lia.
Qed.

(** The loop cannot complete when the input has no entry for some
    layer. *)
Lemma log_prob_loop_short (xl : list pyval) (ls : list Layer.t) :
  forall (k : nat) (acc : list f32),
    k <= length xl ->
    length xl < k + length ls ->
    exists e, log_prob_loop (Seq xl) k ls acc = Error e.
Proof.
  induction ls as [|layer ls IH]; intros k acc Hk Hlen.
  - simpl in Hlen. lia.
  - simpl in Hlen. cbn [log_prob_loop index]. unfold getitem.
    destruct (xl !! k) as [x|] eqn:Ex; cbn [bind]; [|eauto].
    apply lookup_lt_Some in Ex.
    destruct (Layer.log_prob layer x) as [lp|e]; cbn [bind]; [|eauto].
    destruct (tf_add acc lp) as [acc'|e]; cbn [bind]; [|eauto].
    apply IH; lia.
Qed.

(** X11. [log_prob] does not check that its input has one entry per
    layer. On a container of other than one layer, entries appended to a
    non-empty input that already has an entry for every layer are
    ignored: the result, or the exception, is that of the input without
    them. The input has to be non-empty because [xs[0]] is read for the
    batch size even when there is no layer. *)
Theorem log_prob_ignores_extra_entries (h : heap) (c : t)
    (xl extra : list pyval) :
  length (layers_of h c) <> 1 ->
  xl <> [] ->
  length (layers_of h c) <= length xl ->
  log_prob h c (Seq (xl ++ extra)) = log_prob h c (Seq xl).
Proof.
  intros H1 Hne Hlen. unfold log_prob.
  destruct (length (layers_of h c) =? 1) eqn:E;
    [apply Nat.eqb_eq in E; contradiction|].
  destruct xl as [|x0 xl]; [contradiction|].
  cbn [app index]. unfold getitem at 1 3. cbn [lookup list_lookup bind].
  destruct (getitem (get_dims x0) 0) as [n|e]; cbn [bind]; [|reflexivity].
  apply (log_prob_loop_extra (x0 :: xl) extra). simpl. exact Hlen.
Qed.

(** X12. On a container of other than one layer, an input with fewer
    entries than layers always makes [log_prob] raise: no density is
    returned for part of the layers. *)
Theorem log_prob_needs_an_entry_per_layer (h : heap) (c : t) (xl : list pyval) :
  length (layers_of h c) <> 1 ->
  length xl < length (layers_of h c) ->
  exists e, log_prob h c (Seq xl) = Error e.
Proof.
  intros H1 Hlen. unfold log_prob.
  destruct (length (layers_of h c) =? 1) eqn:E;
    [apply Nat.eqb_eq in E; contradiction|].
  destruct (index (Seq xl) 0) as [x0|e]; cbn [bind]; [|eauto].
  destruct (getitem (get_dims x0) 0) as [n|e]; cbn [bind]; [|eauto].
  apply log_prob_loop_short; simpl; lia.
Qed.
End ContainerEdges.

Section ContainerComposition.
Context {FL : Floats}.
Import Variational.

Lemma entropy_loop_comprehension (ls : list Layer.t) :
  forall out : f32,
    entropy_loop ls out
      = do es <- comprehension Layer.entropy ls; Ok (fold_left add32 es out).
Proof.
  induction ls as [|layer ls IH]; intros out; simpl; [reflexivity|].
  destruct (Layer.entropy layer) as [e|ex]; simpl; [|reflexivity].
  rewrite IH. destruct (comprehension Layer.entropy ls); reflexivity.
Qed.

(** X13. [sample] and [entropy] raise exactly when some layer's method
    raises, and then raise the exception of the first such layer in layer
    order. *)
Theorem first_failing_layer (h : heap) (c : t) (e : exn) :
  (forall size,
     sample h c size = Error e <->
     exists i layer,
       layers_of h c !! i = Some layer /\ Layer.sample layer size = Error e /\
       forall j l, j < i -> layers_of h c !! j = Some l ->
                   exists s, Layer.sample l size = Ok s) /\
  (entropy h c = Error e <->
   exists i layer,
     layers_of h c !! i = Some layer /\ Layer.entropy layer = Error e /\
     forall j l, j < i -> layers_of h c !! j = Some l ->
                 exists v, Layer.entropy l = Ok v).
Proof.
  split.
  - intros size.
    rewrite <- (comprehension_Error (fun layer => Layer.sample layer size)).
    unfold sample.
    destruct (comprehension _ (layers_of h c)) as [[|s [|s' ss]]|e']; simpl;
      split; intros H; try discriminate; congruence.
  - rewrite <- (comprehension_Error Layer.entropy).
    unfold entropy. rewrite entropy_loop_comprehension.
    destruct (comprehension _ (layers_of h c)) as [es|e']; simpl;
      split; intros H; try discriminate; congruence.
Qed.

(** X14. [entropy] after [add] is the entropy before plus the entropy of
    the added layer, in this order; it raises what the entropy before
    raised, else what the added layer's entropy raises. *)
Theorem entropy_after_add (h : heap) (c : t) (ls : list Layer.t)
    (layer : Layer.t) :
  h !! layers c = Some ls ->
  entropy (fst (add h c layer)) (snd (add h c layer))
    = do v <- entropy h c;
      do e <- Layer.entropy layer;
      Ok (add32 v e).
Proof.
  intros Hls. unfold entropy, layers_of.
  rewrite (add_layers h c ls layer Hls), Hls. simpl default.
  rewrite !entropy_loop_comprehension, comprehension_app.
  destruct (comprehension Layer.entropy ls) as [es|e]; simpl; [|reflexivity].
  destruct (Layer.entropy layer) as [v|e]; simpl; [|reflexivity].
  rewrite fold_left_app. reflexivity.
Qed.

Lemma log_prob_loop_app (xs : pyval) (ls1 ls2 : list Layer.t) :
  forall (k : nat) (acc : list f32),
    log_prob_loop xs k (ls1 ++ ls2) acc
      = do acc' <- log_prob_loop xs k ls1 acc;
        log_prob_loop xs (k + length ls1) ls2 acc'.
Proof.
  induction ls1 as [|layer ls1 IH]; intros k acc.
  - simpl. rewrite Nat.add_0_r. reflexivity.
  - cbn [app log_prob_loop length].
    destruct (index xs k) as [x|e]; cbn [bind]; [|reflexivity].
    destruct (Layer.log_prob layer x) as [lp|e]; cbn [bind]; [|reflexivity].
    destruct (tf_add acc lp) as [acc'|e]; cbn [bind]; [|reflexivity].
    rewrite IH. replace (S k + length ls1) with (k + S (length ls1)) by lia.
    reflexivity.
Qed.

(** X15. For a container of two or more layers and an input with one
    entry per layer, [log_prob] after [add], on the input extended by an
    entry for the new layer, is the result before plus the new layer's
    densities of its entry; exceptions arise in the same order. *)
Theorem log_prob_after_add (h : heap) (c : t) (ls : list Layer.t)
    (layer : Layer.t) (xl : list pyval) (x : pyval) :
  h !! layers c = Some ls ->
  2 <= length ls ->
  length xl = length ls ->
  log_prob (fst (add h c layer)) (snd (add h c layer)) (Seq (xl ++ [x]))
    = do acc <- log_prob h c (Seq xl);
      do lp <- Layer.log_prob layer x;
      tf_add acc lp.
Proof.
  intros Hls H2 Hxl. unfold log_prob, layers_of.
  rewrite (add_layers h c ls layer Hls), Hls. simpl default.
  rewrite length_app. simpl length.
  destruct (length ls + 1 =? 1) eqn:E1; [apply Nat.eqb_eq in E1; lia|].
  destruct (length ls =? 1) eqn:E2; [apply Nat.eqb_eq in E2; lia|].
  destruct xl as [|x0 xl]; [simpl in Hxl; lia|].
  cbn [app index]. unfold getitem at 1 3. cbn [lookup list_lookup bind].
  destruct (getitem (get_dims x0) 0) as [n|e]; cbn [bind]; [|reflexivity].
  rewrite log_prob_loop_app.
  change (x0 :: xl ++ [x]) with ((x0 :: xl) ++ [x]).
  rewrite log_prob_loop_extra by (simpl; simpl in Hxl; lia).
  destruct (log_prob_loop (Seq (x0 :: xl)) 0 ls (tf_zeros n)) as [acc|e];
    cbn [bind]; [|reflexivity].
  cbn [log_prob_loop index]. unfold getitem.
  rewrite <- Hxl. change (0 + length (x0 :: xl)) with (length (x0 :: xl)).
  rewrite list_lookup_middle by reflexivity. cbn [bind].
  destruct (Layer.log_prob layer x) as [lp|e]; cbn [bind]; [|reflexivity].
  destruct (tf_add acc lp); reflexivity.
Qed.

Lemma add_all_layers (adds : list Layer.t) :
  forall (h : heap) (self : t),
    layers (snd (add_all h self adds)) = layers self.
Proof.
  induction adds as [|l adds IH]; intros h self; cbn [add_all]; [reflexivity|].
  destruct (add h self l) as [h' self'] eqn:E.
  rewrite IH. apply (f_equal snd) in E. simpl in E. subst self'. reflexivity.
Qed.

(** X16. A container keeps the very list it is constructed from. After
    [Variational(layers=r)] and [add], the caller's list [r] holds the
    added layer too; any other container constructed from [r] then refers
    to the longer list, while its aggregates are those of the list as it
    was: they no longer describe its layers. *)
Theorem shared_list_goes_stale (h : heap) (r : loc) (ls : list Layer.t)
    (c : t) (layer : Layer.t) :
  h !! r = Some ls ->
  __init__ h (Some r) = Some (h, c) ->
  let h' := fst (add h c layer) in
  h' !! r = Some (ls ++ [layer]) /\
  layers_of h' c = ls ++ [layer] /\
  aggregates_of c ls /\
  ~ aggregates_of c (layers_of h' c).
Proof.
  intros Hr Hinit h'.
  destruct (init_spec h h (Some r) c Hinit) as (ls' & Hl & Hagg & ->).
  rewrite Hr in Hagg. simpl in Hagg.
  assert (Hlayers : layers c = r).
  { simpl in Hinit. rewrite Hr in Hinit. injection Hinit as <-. reflexivity. }
  assert (Hh' : h' !! r = Some (ls ++ [layer])).
  { unfold h'. simpl. rewrite Hlayers, lookup_alter_eq, Hr. reflexivity. }
  assert (Hof : layers_of h' c = ls ++ [layer]).
  { unfold layers_of. rewrite Hlayers, Hh'. reflexivity. }
  split; [exact Hh'|]. split; [exact Hof|]. split; [exact Hagg|].
  rewrite Hof. intros (Hs & _). destruct Hagg as (Hs' & _).
  rewrite Hs' in Hs. apply (f_equal length) in Hs.
  rewrite !length_map, length_app in Hs. simpl in Hs. lia.
Qed.

(** X17. Calls of [add] on one container do not touch a container that
    refers to another list: its layers stay as they were, so aggregates
    that described them still do. *)
Theorem add_leaves_other_containers (h : heap) (self other : t)
    (adds : list Layer.t) :
  layers other <> layers self ->
  layers_of (fst (add_all h self adds)) other = layers_of h other /\
  (aggregates_of other (layers_of h other) ->
   aggregates_of other (layers_of (fst (add_all h self adds)) other)).
Proof.
  intros Hne.
  assert (Hof : layers_of (fst (add_all h self adds)) other = layers_of h other).
  { revert h self Hne. induction adds as [|l adds IH]; intros h self Hne;
      cbn [add_all]; [reflexivity|].
    destruct (add h self l) as [h1 self1] eqn:E.
    assert (Hl : layers self1 = layers self)
      by (apply (f_equal snd) in E; simpl in E; subst self1; reflexivity).
    rewrite IH by (rewrite Hl; exact Hne).
    apply (f_equal fst) in E. simpl in E. subst h1.
    unfold layers_of. rewrite lookup_alter_ne by congruence. reflexivity. }
  split; [exact Hof|]. rewrite Hof. auto.
Qed.
End ContainerComposition.

(** ** The further results on concrete objects *)

Lemma py_log_prob_before_initialization_witness :
  @StanModel.__init__ Binary.floats None (Some Binary.code) = Ok Binary.stan_fresh /\
  StanModel._py_log_prob Binary.stan_fresh [[Binary.one]] = Error AttributeError.
Proof.
  split; [reflexivity|].
  apply (py_log_prob_before_initialization None (Some Binary.code)
           Binary.stan_fresh eq_refl).
Defined.

Lemma row_dictionary_holds_the_row_witness :
  exists d,
    StanModel.z_dict_loop [Binary.half; Binary.one; Binary.two; Binary.two]
      (zip (StanModel.par_dims Binary.fit_mu_theta)
           (StanModel.model_pars Binary.fit_mu_theta)) [] 0 = Ok d /\
    map fst d = ["mu"%string; "theta"%string] /\
    concat (map (fun kv => StanModel.entries (snd kv)) d)
      = map float_of [Binary.half; Binary.one; Binary.two].
Proof.
  destruct (row_dictionary_holds_the_row
              (Binary.stan_ready Binary.fit_mu_theta) Binary.fit_mu_theta
              [Binary.half; Binary.one; Binary.two; Binary.two]
              eq_refl eq_refl)
    as (d & Hloop & Hkeys & Hvals & _).
  - repeat constructor; simpl; intuition discriminate.
  - repeat constructor.
  - vm_compute. lia.
  - exists d. split; [exact Hloop|]. split; [exact Hkeys | exact Hvals].
Defined.

Lemma num_vars_at_least_parameters_witness :
  @StanModel.__init__ Binary.floats None (Some Binary.code) = Ok Binary.stan_fresh /\
  exists m n,
    StanModel.model
      (fst (fst (StanModel.log_prob nat (Binary.stan_const Binary.fit_mu_theta)
                   Binary.stan_fresh 1 [] []))) = Some m /\
    StanModel.num_vars
      (fst (fst (StanModel.log_prob nat (Binary.stan_const Binary.fit_mu_theta)
                   Binary.stan_fresh 1 [] []))) = Some n /\
    length (StanModel.par_dims m) <= n.
Proof.
  split; [reflexivity|].
  apply (num_vars_at_least_parameters nat (Binary.stan_const Binary.fit_mu_theta)
           None (Some Binary.code) Binary.stan_fresh _ 1 [] [] _ _ eq_refl eq_refl).
Defined.

Lemma initializes_once_when_engine_returns_witness :
  @StanModel.__init__ Binary.floats None (Some Binary.code) = Ok Binary.stan_fresh /\
  StanModel.calls_caught nat (Binary.stan_const Binary.fit_mu) Binary.stan_fresh
      [(1, [[Binary.one]]); (2, [[Binary.two]]); (3, [])] []
    = (StanModel.initialized Binary.stan_fresh Binary.fit_mu,
       [] ++ [StanModel.Print StanModel.startup_message;
              StanModel.Stan (StanModel.ModelCode Binary.code) 1]).
Proof.
  split; [reflexivity|].
  destruct (initializes_once_when_engine_returns nat
              (Binary.stan_const Binary.fit_mu) None (Some Binary.code)
              Binary.stan_fresh eq_refl)
    as (_ & src & Hsrc & Hfirst & _).
  injection Hsrc as <-.
  destruct (Hfirst 1 [[Binary.one]] [] Binary.fit_mu eq_refl) as [_ Hcalls].
  apply Hcalls.
Defined.

Lemma initializes_on_first_success_witness :
  @StanModel.__init__ Binary.floats None (Some Binary.code) = Ok Binary.stan_fresh /\
  StanModel.calls_caught nat (Binary.stan_picky Binary.fit_mu) Binary.stan_fresh
      ([(0, Binary.no_rows)] ++ (1, Binary.no_rows) :: [(2, Binary.no_rows); (0, Binary.no_rows)]) []
    = (StanModel.initialized Binary.stan_fresh Binary.fit_mu,
       [] ++ flat_map (fun c => StanModel.attempt (StanModel.ModelCode Binary.code) (fst c))
                      ([(0, Binary.no_rows)] ++ [(1, Binary.no_rows)])).
Proof.
  split; [reflexivity|].
  destruct (initializes_on_first_success nat (Binary.stan_picky Binary.fit_mu)
              None (Some Binary.code) Binary.stan_fresh [] eq_refl)
    as (src & Hsrc & Hfirst & _).
  injection Hsrc as <-.
  apply Hfirst; [|reflexivity].
  repeat constructor. simpl. eauto.
Defined.

Lemma wrapper_state_is_consistent_witness :
  @StanModel.__init__ Binary.floats None (Some Binary.code) = Ok Binary.stan_fresh /\
  StanModel.model_code
    (fst (StanModel.calls_caught nat (Binary.stan_picky Binary.fit_mu)
            Binary.stan_fresh [(0, Binary.no_rows); (1, Binary.no_rows); (0, Binary.no_rows)] []))
    = Some Binary.code.
Proof.
  split; [reflexivity|].
  destruct (wrapper_state_is_consistent nat (Binary.stan_picky Binary.fit_mu)
              None (Some Binary.code) Binary.stan_fresh
              [(0, Binary.no_rows); (1, Binary.no_rows); (0, Binary.no_rows)] [] eq_refl) as (_ & Hcode & _).
  exact Hcode.
Defined.

Lemma str_joins_layers_witness :
  Binary.heap_ac !! Variational.layers Binary.container_ac
    = Some [Binary.layer_a; Binary.layer_c] /\
  Variational.__str__ Binary.layer_name Binary.heap_ac Binary.container_ac
    = String.concat Variational.newline ["Normal"%string; "Normal"%string].
Proof.
  split; [reflexivity|].
  apply (str_joins_layers Binary.layer_name Binary.heap_ac Binary.container_ac
           [Binary.layer_a; Binary.layer_c] Binary.layer_b eq_refl).
Defined.

Lemma empty_container_witness :
  exists h0 c0,
    @Variational.__init__ Binary.floats ∅ None = Some (h0, c0) /\
    Variational.layers_of h0 c0 = [] /\
    Variational.log_prob h0 c0 (Seq []) = Error IndexError.
Proof.
  eexists _, _. split; [reflexivity|]. split; [reflexivity|].
  eapply empty_container. reflexivity.
Defined.

Lemma log_prob_ignores_extra_entries_witness :
  length (Variational.layers_of Binary.heap_ac Binary.container_ac) <> 1 /\
  Variational.log_prob Binary.heap_ac Binary.container_ac
      (Seq (Binary.xs_ac ++ [Scalar Binary.one]))
    = Variational.log_prob Binary.heap_ac Binary.container_ac (Seq Binary.xs_ac).
Proof.
  split; [vm_compute; lia|].
  apply log_prob_ignores_extra_entries.
  - vm_compute. lia.
  - discriminate.
  - vm_compute. lia.
Defined.

Lemma log_prob_needs_an_entry_per_layer_witness :
  length (Variational.layers_of Binary.heap_ac Binary.container_ac) = 2 /\
  exists e,
    Variational.log_prob Binary.heap_ac Binary.container_ac
      (Seq [Binary.batch 4 (Seq [Scalar Binary.one])]) = Error e.
Proof.
  split; [reflexivity|].
  apply log_prob_needs_an_entry_per_layer; vm_compute; lia.
Defined.

Lemma entropy_after_add_witness :
  Binary.heap_a !! Variational.layers Binary.container_a = Some [Binary.layer_a] /\
  Variational.entropy
      (fst (Variational.add Binary.heap_a Binary.container_a Binary.layer_c))
      (snd (Variational.add Binary.heap_a Binary.container_a Binary.layer_c))
    = do v <- Variational.entropy Binary.heap_a Binary.container_a;
      do e <- Layer.entropy Binary.layer_c;
      Ok (add32 v e).
Proof.
  split; [reflexivity|].
  apply (entropy_after_add Binary.heap_a Binary.container_a [Binary.layer_a]).
  reflexivity.
Defined.

Lemma log_prob_after_add_witness :
  Binary.heap_ac !! Variational.layers Binary.container_ac
    = Some [Binary.layer_a; Binary.layer_c] /\
  Variational.log_prob
      (fst (Variational.add Binary.heap_ac Binary.container_ac Binary.layer_b))
      (snd (Variational.add Binary.heap_ac Binary.container_ac Binary.layer_b))
      (Seq (Binary.xs_ac ++ [Binary.batch 4 (Seq [Scalar Binary.two; Scalar Binary.two])]))
    = do acc <- Variational.log_prob Binary.heap_ac Binary.container_ac
                  (Seq Binary.xs_ac);
      do lp <- Layer.log_prob Binary.layer_b
                 (Binary.batch 4 (Seq [Scalar Binary.two; Scalar Binary.two]));
      tf_add acc lp.
Proof.
  split; [reflexivity|].
  apply (log_prob_after_add Binary.heap_ac Binary.container_ac
           [Binary.layer_a; Binary.layer_c]).
  - reflexivity.
  - simpl. lia.
  - reflexivity.
Defined.

Lemma shared_list_goes_stale_witness :
  Variational.__init__ Binary.heap_ac (Some 0)
    = Some (Binary.heap_ac, Binary.container_ac) /\
  fst (Variational.add Binary.heap_ac Binary.container_ac Binary.layer_b) !! 0
    = Some ([Binary.layer_a; Binary.layer_c] ++ [Binary.layer_b]) /\
  ~ Variational.aggregates_of Binary.container_ac
      (Variational.layers_of
         (fst (Variational.add Binary.heap_ac Binary.container_ac Binary.layer_b))
         Binary.container_ac).
Proof.
  split; [reflexivity|].
  destruct (shared_list_goes_stale Binary.heap_ac 0
              [Binary.layer_a; Binary.layer_c] Binary.container_ac Binary.layer_b
              eq_refl eq_refl) as (Hlist & _ & _ & Hstale).
  split; [exact Hlist | exact Hstale].
Defined.

Lemma add_leaves_other_containers_witness :
  Variational.layers Binary.container_c <> Variational.layers Binary.container_a /\
  Variational.layers_of
      (fst (Variational.add_all Binary.heap_two Binary.container_a
              [Binary.layer_b; Binary.layer_b]))
      Binary.container_c
    = Variational.layers_of Binary.heap_two Binary.container_c.
Proof.
  split; [discriminate|].
  apply (add_leaves_other_containers Binary.heap_two Binary.container_a
           Binary.container_c [Binary.layer_b; Binary.layer_b]).
  discriminate.
Defined.

Section SampleAfterAdd.
Context {FL : Floats}.
Import Variational.

(** X18. The shape of what [sample] returns follows the number of
    layers: when the layers of a container all sample, then after [add]
    of a layer that samples, [sample] returns the new layer's sample
    itself if the container was empty, and otherwise the sequence of the
    samples before followed by the new one, so that the bare sample of a
    one-layer container becomes the first element of a two-element
    sequence. *)
Theorem sample_after_add (h : heap) (c : t) (ls : list Layer.t)
    (layer : Layer.t) (size : Z) (ss : list pyval) (s : pyval) :
  h !! layers c = Some ls ->
  Forall2 (fun l x => Layer.sample l size = Ok x) ls ss ->
  Layer.sample layer size = Ok s ->
  sample h c size = match ss with
                    | [s0] => Ok s0
                    | _ => Ok (Seq ss)
                    end /\
  sample (fst (add h c layer)) (snd (add h c layer)) size
    = match ss with
      | [] => Ok s
      | _ => Ok (Seq (ss ++ [s]))
      end.
Proof.
  intros Hls Hss Hs.
  apply comprehension_Ok in Hss.
  split.
  - unfold sample, layers_of. rewrite Hls. simpl default. rewrite Hss.
    reflexivity.
  - unfold sample, layers_of.
    rewrite (add_layers h c ls layer Hls). simpl default.
    rewrite comprehension_app, Hss. simpl. rewrite Hs. simpl.
    destruct ss as [|s0 [|s1 ss]]; reflexivity.
Qed.
End SampleAfterAdd.

Lemma sample_after_add_witness :
  Binary.heap_a !! Variational.layers Binary.container_a = Some [Binary.layer_a] /\
  Variational.sample
      (fst (Variational.add Binary.heap_a Binary.container_a Binary.layer_c))
      (snd (Variational.add Binary.heap_a Binary.container_a Binary.layer_c)) 1
    = Ok (Seq ([Binary.batch 1 (Seq [Scalar Binary.one; Scalar Binary.half;
                                     Scalar Binary.two])]
               ++ [Binary.batch 1 (Seq [Scalar Binary.half; Scalar Binary.one])])).
Proof.
  split; [reflexivity|].
  apply (sample_after_add Binary.heap_a Binary.container_a [Binary.layer_a]
           Binary.layer_c 1
           [Binary.batch 1 (Seq [Scalar Binary.one; Scalar Binary.half;
                                 Scalar Binary.two])]).
  - reflexivity.
  - repeat constructor.
  - reflexivity.
Defined.
